(** * The creator classification pipeline

    A shallow embedding of the two pipeline scripts,
    [batch-classify-creators.py] and [reclassify-creators.py]:
    the retrying HTTP fetcher, the per-user cast cache, the Gemini
    classification call with its retry loop and its response parsing,
    the merge with the creator's earnings data and the collection of the
    results in completion order.

    Python values are the values [json.load] produces; a Python
    exception is an explicit result; network, generative service, clock,
    sleeps and the cast directory are fields of a [World] threaded
    through a small state-and-exception monad. *)

From stdpp Require Import gmap strings list pretty.
From Stdlib Require Import ZArith Ascii String Permutation Lia.

Open Scope Z_scope.
#[local] Set Warnings "-register-all".

(** ** Python values *)

(** The values of the JSON files and API bodies.  A [dict] keeps its
    insertion order, so it is an association list; numbers are the
    integers (the functions modelled here never compute with the
    fractional numbers JSON also allows).  A text is a sequence of
    characters with code points below 256. *)
Inductive json : Type :=
| JNull
| JBool (b : bool)
| JInt (n : Z)
| JStr (s : string)
| JList (l : list json)
| JDict (d : list (string * json)).

Abbreviation dict := (list (string * json)).

(** Exceptions are all subclasses of [Exception]; [str(e)] is the message. *)
Inductive exn : Type := Exn (cls : string) (msg : string).

Definition exn_str (e : exn) : string := let 'Exn _ m := e in m.

Inductive result (A : Type) : Type :=
| Ok (a : A)
| Raise (e : exn).
Arguments Ok {A} a.
Arguments Raise {A} e.

Definition AttributeError (what : string) : exn :=
  Exn "AttributeError" (what +:+ " object has no attribute 'get'").
Definition TypeError (msg : string) : exn := Exn "TypeError" msg.
Definition KeyError (key : string) : exn := Exn "KeyError" ("'" +:+ key +:+ "'").
Definition IndexError (msg : string) : exn := Exn "IndexError" msg.
Definition ValueError (msg : string) : exn := Exn "ValueError" msg.

(** [type(v).__name__], as it appears in error messages. *)
Definition type_name (v : json) : string :=
  match v with
  | JNull => "'NoneType'"
  | JBool _ => "'bool'"
  | JInt _ => "'int'"
  | JStr _ => "'str'"
  | JList _ => "'list'"
  | JDict _ => "'dict'"
  end.

(** Truth value of a Python object, as [if v:] tests it. *)
Definition truthy (v : json) : bool :=
  match v with
  | JNull => false
  | JBool b => b
  | JInt n => negb (n =? 0)
  | JStr s => negb (String.eqb s EmptyString)
  | JList l => match l with [] => false | _ => true end
  | JDict d => match d with [] => false | _ => true end
  end.

Definition is_none (v : json) : bool :=
  match v with JNull => true | _ => false end.

Definition is_dict (v : json) : bool :=
  match v with JDict _ => true | _ => false end.

(** *** Dictionaries *)

Fixpoint dict_lookup (k : string) (d : dict) : option json :=
  match d with
  | [] => None
  | (k', v) :: d' => if String.eqb k k' then Some v else dict_lookup k d'
  end.

(** [d[k] = v]: an existing key keeps its place, a new key goes last. *)
Fixpoint dict_set (k : string) (v : json) (d : dict) : dict :=
  match d with
  | [] => [(k, v)]
  | (k', v') :: d' =>
      if String.eqb k k' then (k', v) :: d' else (k', v') :: dict_set k v d'
  end.

Definition dict_update (d items : dict) : dict :=
  fold_left (fun acc kv => dict_set (fst kv) (snd kv) acc) items d.

(** A dict display [{k1: v1, **m, k2: v2}], evaluated left to right. *)
Inductive entry : Type :=
| Item (k : string) (v : json)
| Spread (m : dict).

Definition dict_display (es : list entry) : dict :=
  fold_left (fun acc e =>
               match e with
               | Item k v => dict_set k v acc
               | Spread m => dict_update acc m
               end) es [].

Definition has_key (k : string) (d : dict) : bool :=
  match dict_lookup k d with Some _ => true | None => false end.

Definition keys (d : dict) : list string := map fst d.

(** [v.get(k, default)]: only a dict has the method. *)
Definition py_get (v : json) (k : string) (default : json) : result json :=
  match v with
  | JDict d => Ok (match dict_lookup k d with Some x => x | None => default end)
  | _ => Raise (AttributeError (type_name v))
  end.

(** [v[k]] with a string key. *)
Definition py_getitem (v : json) (k : string) : result json :=
  match v with
  | JDict d =>
      match dict_lookup k d with Some x => Ok x | None => Raise (KeyError k) end
  | JList _ => Raise (TypeError "list indices must be integers or slices, not str")
  | JStr _ => Raise (TypeError "string indices must be integers, not 'str'")
  | _ => Raise (TypeError (type_name v +:+ " object is not subscriptable"))
  end.

(** [v[0]]. *)
Definition py_first (v : json) : result json :=
  match v with
  | JList (x :: _) => Ok x
  | JList [] => Raise (IndexError "list index out of range")
  | JStr (String c _) => Ok (JStr (String c EmptyString))
  | JStr EmptyString => Raise (IndexError "string index out of range")
  | JDict d => Raise (Exn "KeyError" "0")
  | _ => Raise (TypeError (type_name v +:+ " object is not subscriptable"))
  end.

Fixpoint chars (s : string) : list json :=
  match s with
  | EmptyString => []
  | String c s' => JStr (String c EmptyString) :: chars s'
  end.

(** The items a [for] loop or [enumerate] draws from [v]. *)
Definition py_iter (v : json) : result (list json) :=
  match v with
  | JList l => Ok l
  | JStr s => Ok (chars s)
  | JDict d => Ok (map JStr (keys d))
  | _ => Raise (TypeError (type_name v +:+ " object is not iterable"))
  end.

(** [len(v)]. *)
Definition py_len (v : json) : result Z :=
  match v with
  | JList l => Ok (Z.of_nat (List.length l))
  | JStr s => Ok (Z.of_nat (String.length s))
  | JDict d => Ok (Z.of_nat (List.length d))
  | _ => Raise (TypeError ("object of type " +:+ type_name v +:+ " has no len()"))
  end.

(** [sep.join(parts)]. *)
Fixpoint join (sep : string) (parts : list string) : string :=
  match parts with
  | [] => EmptyString
  | [p] => p
  | p :: ps => p +:+ sep +:+ join sep ps
  end.

(** [enumerate(l)]. *)
Fixpoint enumerate_from {A} (i : Z) (l : list A) : list (Z * A) :=
  match l with
  | [] => []
  | x :: l' => (i, x) :: enumerate_from (i + 1) l'
  end.
Definition enumerate {A} (l : list A) : list (Z * A) := enumerate_from 0 l.

(** [range(n)]. *)
Definition range (n : Z) : list Z := map Z.of_nat (seq 0 (Z.to_nat n)).

(** ** The world and the monad of effects *)

(** What one GET gives: [session.get] raises (timeout, connection
    error), or a response arrives with a status and a body that
    [response.json()] parses or rejects. *)
Record response : Type := mkResponse {
  status : Z;
  body : result json
}.

Inductive http_outcome : Type :=
| HttpError (e : exn)
| HttpResponse (r : response).

(** What one [generate_content] call gives: it raises, or a response
    arrives whose [text] is a string or [None]. *)
Inductive gen_outcome : Type :=
| GenError (e : exn)
| GenText (text : option string).

(** The part of the world one task sees.  [http_pending] and
    [gen_pending] are the answers the two services will give to the
    task's next calls, in order; [http_log] (the URLs requested),
    [gen_log] (the prompts sent) and [slept] (the delays slept, in
    seconds) record what the task did, oldest first.  [files] is the
    working directory, each JSON file with its parsed content, and [now]
    is the reading of the UTC clock in ISO format that the task gets
    when it stamps its result. *)
Record World : Type := mkWorld {
  http_pending : list http_outcome;
  http_log : list string;
  gen_pending : list gen_outcome;
  gen_log : list string;
  slept : list Z;
  files : gmap string json;
  now : string
}.

Definition M (A : Type) : Type := World -> result A * World.

Definition ret {A} (a : A) : M A := fun w => (Ok a, w).
Definition raise {A} (e : exn) : M A := fun w => (Raise e, w).
Definition bind {A B} (m : M A) (k : A -> M B) : M B :=
  fun w => match m w with
           | (Ok a, w') => k a w'
           | (Raise e, w') => (Raise e, w')
           end.
Definition lift {A} (r : result A) : M A := fun w => (r, w).

Notation "'let*' x ':=' m 'in' k" := (bind m (fun x => k))
  (at level 10, x pattern, m at level 100, k at level 200).

(** [try: m  except Exception as e: h e]. *)
Definition try_except {A} (m : M A) (h : exn -> M A) : M A :=
  fun w => match m w with
           | (Ok a, w') => (Ok a, w')
           | (Raise e, w') => h e w'
           end.

(** A loop body either falls through to the next round or returns. *)
Inductive flow (A : Type) : Type :=
| Continue
| Return (a : A).
Arguments Continue {A}.
Arguments Return {A} a.

(** [for x in xs: body x] followed by [after]. *)
Fixpoint for_each {A} (xs : list Z) (body : Z -> M (flow A)) (after : M A) : M A :=
  match xs with
  | [] => after
  | x :: xs' =>
      fun w => match body x w with
               | (Ok Continue, w') => for_each xs' body after w'
               | (Ok (Return a), w') => (Ok a, w')
               | (Raise e, w') => (Raise e, w')
               end
  end.

(** *** Primitive effects *)

Definition asyncio_sleep (d : Z) : M unit :=
  fun w => (Ok tt, mkWorld (http_pending w) (http_log w) (gen_pending w)
                           (gen_log w) (slept w ++ [d]) (files w) (now w)).

(** A network with no answer left refuses the connection. *)
Definition session_get (url : string) : M response :=
  fun w =>
    let w' rest := mkWorld rest (http_log w ++ [url]) (gen_pending w)
                           (gen_log w) (slept w) (files w) (now w) in
    match http_pending w with
    | [] => (Raise (Exn "ClientConnectionError" "Cannot connect to host"), w' [])
    | HttpError e :: rest => (Raise e, w' rest)
    | HttpResponse r :: rest => (Ok r, w' rest)
    end.

Definition response_json (r : response) : M json := lift (body r).

Definition generate_content (prompt : string) : M (option string) :=
  fun w =>
    let w' rest := mkWorld (http_pending w) (http_log w) rest
                           (gen_log w ++ [prompt]) (slept w) (files w) (now w) in
    match gen_pending w with
    | [] => (Raise (Exn "ServerError" "service unavailable"), w' [])
    | GenError e :: rest => (Raise e, w' rest)
    | GenText t :: rest => (Ok t, w' rest)
    end.

Definition file_exists (path : string) : M bool :=
  fun w => (Ok (bool_decide (is_Some (files w !! path))), w).

Definition write_json (path : string) (data : json) : M unit :=
  fun w => (Ok tt, mkWorld (http_pending w) (http_log w) (gen_pending w)
                           (gen_log w) (slept w) (<[path := data]> (files w)) (now w)).

(** [datetime.utcnow().isoformat()]. *)
Definition utcnow_isoformat : M string := fun w => (Ok (now w), w).

(** ** Configuration *)

Definition CONCURRENT_REQUESTS : Z := 20.
Definition RETRY_ATTEMPTS : Z := 3.
Definition RETRY_DELAY : Z := 2.

(** ** Text: [strip] and the search for the JSON object *)

(** The characters [str.strip()] removes, among those below 256:
    tab to carriage return, the four separators 28 to 31, the space,
    NEL (133) and the no-break space (160). *)
Definition is_space (c : ascii) : bool :=
  let n := nat_of_ascii c in
  ((9 <=? n) && (n <=? 13) || (28 <=? n) && (n <=? 32)
   || (n =? 133) || (n =? 160))%nat.

Fixpoint lstrip (s : string) : string :=
  match s with
  | EmptyString => EmptyString
  | String c s' => if is_space c then lstrip s' else s
  end.

Fixpoint rstrip (s : string) : string :=
  match s with
  | EmptyString => EmptyString
  | String c s' =>
      match rstrip s' with
      | EmptyString => if is_space c then EmptyString else String c EmptyString
      | r => String c r
      end
  end.

Definition strip (s : string) : string := rstrip (lstrip s).

(** [response.text.strip()]: [None] has no [strip]. *)
Definition py_strip (text : option string) : result string :=
  match text with
  | Some s => Ok (strip s)
  | None => Raise (Exn "AttributeError" "'NoneType' object has no attribute 'strip'")
  end.

(** The regular expressions the scripts use are sequences of two kinds
    of atom: a literal character, and the greedy star of a class that
    matches every character (written [[\s\S]*]). *)
Inductive re_atom : Type :=
| ReChar (c : ascii)
| ReAnyStar.

(** Backtracking match of pattern [p] at the start of [s], as [re]
    does it: the star first takes as many characters as it can and
    gives them back one at a time until the rest of the pattern
    matches.  The result is the matched text, [group(0)]. *)
Fixpoint match_here (p : list re_atom) (s : string) : option string :=
  match p with
  | [] => Some EmptyString
  | ReChar c :: p' =>
      match s with
      | String a s' =>
          if Ascii.eqb a c then
            match match_here p' s' with
            | Some m => Some (String a m)
            | None => None
            end
          else None
      | EmptyString => None
      end
  | ReAnyStar :: p' =>
      (fix star (s : string) : option string :=
         match s with
         | String a s' =>
             match star s' with
             | Some m => Some (String a m)
             | None => match_here p' s
             end
         | EmptyString => match_here p' s
         end) s
  end.

(** [re.search(p, s)]: the match at the leftmost position that has one. *)
Fixpoint re_search (p : list re_atom) (s : string) : option string :=
  match match_here p s with
  | Some m => Some m
  | None =>
      match s with
      | String _ s' => re_search p s'
      | EmptyString => None
      end
  end.

Definition lbrace : ascii := "{"%char.
Definition rbrace : ascii := "}"%char.

(** The pattern of both scripts: an opening brace, anything, a closing brace. *)
Definition json_pattern : list re_atom := [ReChar lbrace; ReAnyStar; ReChar rbrace].

(** The same extraction in the words of the specification: the text
    that runs from the first opening brace to the last closing brace. *)
Fixpoint after_first (c : ascii) (s : string) : option string :=
  match s with
  | EmptyString => None
  | String a s' => if Ascii.eqb a c then Some s' else after_first c s'
  end.

Fixpoint through_last (c : ascii) (s : string) : option string :=
  match s with
  | EmptyString => None
  | String a s' =>
      match through_last c s' with
      | Some m => Some (String a m)
      | None => if Ascii.eqb a c then Some (String a EmptyString) else None
      end
  end.

Definition first_to_last_brace (s : string) : option string :=
  match after_first lbrace s with
  | None => None
  | Some rest =>
      match through_last rbrace rest with
      | Some m => Some (String lbrace m)
      | None => None
      end
  end.

(** Whether a character occurs in a text. *)
Fixpoint occurs (c : ascii) (s : string) : bool :=
  match s with
  | EmptyString => false
  | String a s' => Ascii.eqb a c || occurs c s'
  end.

Definition brace_free (s : string) : bool :=
  negb (occurs lbrace s) && negb (occurs rbrace s).

(** ** Code the two scripts share word for word *)

Notation "'let?' x ':=' r 'in' k" :=
  (match r with Ok x => k | Raise e => Raise e end)
  (at level 10, x pattern, r at level 100, k at level 200).

(** [[f x for x in xs]] where [f] may raise. *)
Fixpoint map_result {A B} (f : A -> result B) (xs : list A) : result (list B) :=
  match xs with
  | [] => Ok []
  | x :: xs' =>
      let? y := f x in
      let? ys := map_result f xs' in
      Ok (y :: ys)
  end.

Definition CASTS_DIR : string := "casts".

Definition CLASSIFICATION_CATEGORIES : list string := [
  "Builder - Creates tools, apps, technical projects, infrastructure, open source software, launches products";
  "Creative - Creates art, design, music, visual content, memes, creative expression, digital collectibles";
  "Influencer - Well-known industry figures (typically >50k followers) who primarily share insights, commentary, and opinions. May have technical backgrounds but current content focuses on thought leadership rather than active product development";
  "Lifestyle - Personal updates, daily life, travel, food, fitness, wellness, personal brand, general social engagement"
]%string.

Definition nl : string := String "010"%char EmptyString.
Definition quoted (s : string) : string :=
  String "034"%char s +:+ String "034"%char EmptyString.

Definition NO_BIO : json := JStr "No bio available".

(** [**m] inside a dict display needs a mapping. *)
Definition py_mapping (v : json) : result dict :=
  match v with
  | JDict d => Ok d
  | _ => Raise (TypeError (type_name v +:+ " object is not a mapping"))
  end.

(** [isinstance(v, dict)]. *)
Definition isinstance_dict (v : json) : bool := is_dict v.

(** The filter of both [main]s: one round of the loop over
    [creators_data], telling whether the creator is kept. *)
Definition has_farcaster (c : json) : result bool :=
  if is_none c then Ok false
  else
    let? socials := py_get c "socials" JNull in
    if is_none socials || negb (isinstance_dict socials) then Ok false
    else
      let? farcaster := py_get socials "farcaster" JNull in
      if is_none farcaster || negb (isinstance_dict farcaster) then Ok false
      else
        let? username := py_get farcaster "username" JNull in
        Ok (truthy username).

Fixpoint filter_result {A} (f : A -> result bool) (xs : list A) : result (list A) :=
  match xs with
  | [] => Ok []
  | x :: xs' =>
      let? keep := f x in
      let? rest := filter_result f xs' in
      Ok (if keep then x :: rest else rest)
  end.

Definition creators_with_farcaster (creators_data : json) : result (list json) :=
  let? cs := py_iter creators_data in
  filter_result has_farcaster cs.

(** [creator['socials']['farcaster']['username']]. *)
Definition farcaster_username (creator : json) : result json :=
  let? socials := py_getitem creator "socials" in
  let? farcaster := py_getitem socials "farcaster" in
  py_getitem farcaster "username".

(** [tqdm_asyncio.as_completed(tasks)] hands the results over in the
    order in which the tasks finish.  That order is the scheduler's:
    [order] lists the task indices as they complete. *)
Definition as_completed {A} (order : list nat) (results : list A) : list A :=
  omap (fun i => results !! i) order.

Definition OUTPUT_FILE : string := "creator-classifications-with-earnings.json".

Section Prompting.

(** Library functions the scripts call, taken as given: the built-in
    [str] on values (what an f-string puts for a value) and [json.loads]. *)
Variable py_str : json -> string.
Variable json_loads : string -> result json.

(** [CASTS_DIR / f'{username}-casts.json']. *)
Definition cast_file (username : json) : string :=
  CASTS_DIR +:+ "/" +:+ py_str username +:+ "-casts.json".

(** The block under [# Extract bio]. *)
Definition extract_bio (casts : json) : result json :=
  let bio := NO_BIO in
  let? nonempty :=
    (if truthy casts then let? n := py_len casts in Ok (0 <? n) else Ok false) in
  if nonempty then
    let? first := py_first casts in
    let? author := py_get first "author" (JDict []) in
    let? profile := py_get author "profile" (JDict []) in
    let? b := py_get profile "bio" (JDict []) in
    py_get b "text" NO_BIO
  else Ok bio.

(** The block under [# Prepare prompt]. *)
Definition build_prompt (user bio cast_texts : json) : result string :=
  let? texts := py_iter cast_texts in
  let cast_content :=
    join (nl +:+ nl)
         (map (fun it => py_str (JInt (fst it + 1)) +:+ ". " +:+ py_str (snd it))
              (enumerate texts)) in
  let categories :=
    join nl
         (map (fun it => py_str (JInt (fst it + 1)) +:+ ". " +:+ snd it)
              (enumerate CLASSIFICATION_CATEGORIES)) in
  let? username := py_get user "username" JNull in
  let? display_name := py_get user "display_name" JNull in
  let? follower_count := py_get user "follower_count" JNull in
  let? following_count := py_get user "following_count" JNull in
  let? n := py_len cast_texts in
  Ok (join nl [
    "You are analyzing a Farcaster (decentralized social media) user to classify their primary creator type.";
    EmptyString;
    "**User Information:**";
    "- Username: " +:+ py_str username;
    "- Display Name: " +:+ py_str display_name;
    "- Bio: " +:+ py_str bio;
    "- Follower Count: " +:+ py_str follower_count;
    "- Following Count: " +:+ py_str following_count;
    EmptyString;
    "**Recent Cast Content (" +:+ py_str (JInt n) +:+ " casts):**";
    cast_content;
    EmptyString;
    "**Classification Categories:**";
    categories;
    EmptyString;
    "**Examples:**";
    "- **Influencer**: Balaji (founder but now focuses on macro commentary and predictions), Jacob Horne (works at Zora but shares industry insights and thought leadership), Vitalik (technical background but primarily thought leader), influential VCs who share market insights";
    "- **Builder**: Someone actively shipping products, writing code, launching new tools/apps, working on infrastructure";
    "- **Creative**: Artists minting NFTs, musicians releasing songs, designers sharing work, photographers";
    "- **Lifestyle**: Fitness journeys, food content, travel updates, personal daily life";
    EmptyString;
    "**Task:**";
    "Analyze this user's bio and cast content to determine their primary creator classification. Pay special attention to follower count and whether content is primarily thought leadership/commentary (Influencer) vs active building/shipping (Builder).";
    EmptyString;
    "Provide your response in the following JSON format:";
    "{";
    "  " +:+ quoted "primary_classification" +:+ ": "
         +:+ quoted "<one of: Builder, Creative, Influencer, Lifestyle>" +:+ ",";
    "  " +:+ quoted "confidence" +:+ ": " +:+ quoted "<High, Medium, or Low>" +:+ ",";
    "  " +:+ quoted "reasoning" +:+ ": "
         +:+ quoted "<2-3 sentences explaining your classification based on their bio and cast content>"
         +:+ ",";
    "  " +:+ quoted "secondary_traits" +:+ ": ["
         +:+ quoted "<optional list of other notable traits>" +:+ "]";
    "}";
    EmptyString;
    "Only respond with the JSON, no additional text."
  ]%string).

(** The lines from [response.text.strip()] to [json.loads]: the
    response-parsing step. *)
Definition parse_response (text : option string) : result json :=
  let? response_text := py_strip text in
  match re_search json_pattern response_text with
  | None => Raise (ValueError "No JSON found in response")
  | Some json_match => json_loads json_match
  end.

(** The loop of both [main]s that gathers the work of the
    classification stage: for each kept creator, in order, the cached
    cast data when the cast file exists and its [cast_texts] is truthy. *)
Fixpoint classification_inputs (fs : gmap string json) (creators : list json)
  : result (list (json * json)) :=
  match creators with
  | [] => Ok []
  | creator :: rest =>
      let? username := farcaster_username creator in
      let? here :=
        match fs !! cast_file username with
        | Some cast_data =>
            let? texts := py_get cast_data "cast_texts" JNull in
            Ok (if truthy texts then [(cast_data, creator)] else [])
        | None => Ok []
        end in
      let? more := classification_inputs fs rest in
      Ok (here ++ more)
  end.

End Prompting.

(** ** batch-classify-creators.py *)

Module BatchClassify.

(** ** The retrying fetcher (batch-classify-creators.py) *)

(** [fetch_with_retry(session, url, headers, max_retries)].  The headers
    only carry the API key and reach nothing but the network, so they
    are left out.  Python's [None] is [JNull]. *)
Definition fetch_with_retry (url : string) (max_retries : Z) : M json :=
  for_each (range max_retries)
    (fun attempt =>
       try_except
         (let* response := session_get url in
          if status response =? 200 then
            let* data := response_json response in
            ret (Return data)
          else if status response =? 429 then
            let wait_time := RETRY_DELAY * 2 ^ attempt in
            let* _ := asyncio_sleep wait_time in
            ret Continue
          else
            ret (Return JNull))
         (fun e =>
            if attempt =? max_retries - 1 then ret (Return JNull)
            else
              let* _ := asyncio_sleep (RETRY_DELAY * 2 ^ attempt) in
              ret Continue))
    (ret JNull).

Section Ingestion.

Variable py_str : json -> string.

(** [get_user_by_username(session, username)]. *)
Definition get_user_by_username (username : json) : M json :=
  let url := "https://api.neynar.com/v2/farcaster/user/by_username?username="
             +:+ py_str username in
  let* data := fetch_with_retry url RETRY_ATTEMPTS in
  if truthy data then lift (py_get data "user" JNull)
  else ret JNull.

(** [get_popular_casts(session, fid, limit=10)]. *)
Definition get_popular_casts (fid : json) (limit : Z) : M json :=
  let url := "https://api.neynar.com/v2/farcaster/feed/user/popular?fid="
             +:+ py_str fid +:+ "&limit=" +:+ py_str (JInt limit) in
  let* data := fetch_with_retry url RETRY_ATTEMPTS in
  if truthy data then lift (py_get data "casts" (JList []))
  else ret JNull.

(** [fetch_casts_for_user(session, username, semaphore)]; the returned
    tuple is a pair.  The semaphore only delays the start of the task. *)
Definition fetch_casts_for_user (username : json) : M (bool * string) :=
  let output_file := cast_file py_str username in
  let* cached := file_exists output_file in
  if cached then ret (true, "cached")
  else
    let* user := get_user_by_username username in
    if negb (truthy user) then ret (false, "user_fetch_failed")
    else
      let* fid := lift (py_getitem user "fid") in
      let* casts := get_popular_casts fid 10 in
      if is_none casts then ret (false, "casts_fetch_failed")
      else
        let* items := lift (py_iter casts) in
        let* cast_texts := lift (map_result (fun cast => py_get cast "text" (JStr EmptyString)) items) in
        let* u_fid := lift (py_get user "fid" JNull) in
        let* u_username := lift (py_get user "username" JNull) in
        let* u_display_name := lift (py_get user "display_name" JNull) in
        let* u_pfp_url := lift (py_get user "pfp_url" JNull) in
        let* u_follower_count := lift (py_get user "follower_count" JNull) in
        let* u_following_count := lift (py_get user "following_count" JNull) in
        let* fetched_at := utcnow_isoformat in
        let data := JDict (dict_display [
          Item "cast_texts" (JList cast_texts);
          Item "user" (JDict (dict_display [
            Item "fid" u_fid;
            Item "username" u_username;
            Item "display_name" u_display_name;
            Item "pfp_url" u_pfp_url;
            Item "follower_count" u_follower_count;
            Item "following_count" u_following_count]));
          Item "casts" casts;
          Item "fetched_at" (JStr fetched_at)]) in
        let* _ := write_json output_file data in
        ret (true, "fetched").

End Ingestion.

Section Classification.

Variable py_str : json -> string.
Variable json_loads : string -> result json.

(** [classify_creator(cast_data, semaphore)].  The semaphore only
    delays the start of the task. *)
Definition classify_creator (cast_data : json) : M json :=
  let* cast_texts := lift (py_get cast_data "cast_texts" (JList [])) in
  let* user := lift (py_get cast_data "user" (JDict [])) in
  let* casts := lift (py_get cast_data "casts" (JList [])) in
  let* bio := lift (extract_bio casts) in
  let* prompt := lift (build_prompt py_str user bio cast_texts) in
  try_except
    (for_each (range RETRY_ATTEMPTS)
       (fun attempt =>
          try_except
            (let* text := generate_content prompt in
             let* classification := lift (parse_response json_loads text) in
             let* username := lift (py_get user "username" JNull) in
             let* display_name := lift (py_get user "display_name" JNull) in
             let* follower_count := lift (py_get user "follower_count" JNull) in
             let* casts_analyzed := lift (py_len cast_texts) in
             let* fields := lift (py_mapping classification) in
             let* analyzed_at := utcnow_isoformat in
             ret (Return (JDict (dict_display [
               Item "username" username;
               Item "display_name" display_name;
               Item "bio" bio;
               Item "follower_count" follower_count;
               Item "casts_analyzed" (JInt casts_analyzed);
               Spread fields;
               Item "analyzed_at" (JStr analyzed_at)]))))
            (fun e =>
               if attempt =? RETRY_ATTEMPTS - 1 then raise e
               else
                 let* _ := asyncio_sleep (RETRY_DELAY * 2 ^ attempt) in
                 ret Continue))
       (ret JNull))
    (fun e =>
       let* username := lift (py_get user "username" JNull) in
       let* display_name := lift (py_get user "display_name" JNull) in
       let* analyzed_at := utcnow_isoformat in
       ret (JDict (dict_display [
         Item "username" username;
         Item "display_name" display_name;
         Item "error" (JStr (exn_str e));
         Item "analyzed_at" (JStr analyzed_at)]))).

(** [process_classification(task, creator)], the merge with the
    creator's earnings data. *)
Definition process_classification (task : M json) (creator : json) : M json :=
  let* classification := task in
  let* fields := lift (py_mapping classification) in
  let* earnings_usd := lift (py_get creator "totalEarningsUsd" JNull) in
  let* coin_address := lift (py_get creator "coinAddress" JNull) in
  let* market_cap := lift (py_get creator "marketCap" JNull) in
  let* zora_handle := lift (py_get creator "handle" JNull) in
  let enriched := JDict (dict_display [
    Spread fields;
    Item "earnings_usd" earnings_usd;
    Item "coin_address" coin_address;
    Item "market_cap" market_cap;
    Item "zora_handle" zora_handle]) in
  ret enriched.

(** Steps 4 and 5 of [main]: the classification tasks of the kept
    creators, their results collected as the tasks complete, and the
    list written to the output file.  Task [i] runs against its own
    view [envs i] of the services; an exception of a task leaves
    [main] at the [await]. *)
Definition run_tasks (envs : nat -> World) (tasks : list (json * json))
  : list (result json) :=
  imap (fun i task =>
          fst (process_classification (classify_creator (fst task)) (snd task) (envs i)))
       tasks.

Definition main_classify (fs : gmap string json) (creators : list json)
           (envs : nat -> World) (order : list nat) : result (gmap string json) :=
  let? classification_tasks := classification_inputs py_str fs creators in
  let? classifications :=
    map_result id (as_completed order (run_tasks envs classification_tasks)) in
  Ok (<[OUTPUT_FILE := JList classifications]> fs).

End Classification.

End BatchClassify.

(** ** reclassify-creators.py *)

Module Reclassify.

Section Classification.

Variable py_str : json -> string.
Variable json_loads : string -> result json.

(** [classify_creator(cast_data, creator_data, semaphore)]: the same
    call, with the earnings data written into both records. *)
Definition classify_creator (cast_data creator_data : json) : M json :=
  let* cast_texts := lift (py_get cast_data "cast_texts" (JList [])) in
  let* user := lift (py_get cast_data "user" (JDict [])) in
  let* casts := lift (py_get cast_data "casts" (JList [])) in
  let* bio := lift (extract_bio casts) in
  let* prompt := lift (build_prompt py_str user bio cast_texts) in
  try_except
    (for_each (range RETRY_ATTEMPTS)
       (fun attempt =>
          try_except
            (let* text := generate_content prompt in
             let* classification := lift (parse_response json_loads text) in
             let* username := lift (py_get user "username" JNull) in
             let* display_name := lift (py_get user "display_name" JNull) in
             let* follower_count := lift (py_get user "follower_count" JNull) in
             let* casts_analyzed := lift (py_len cast_texts) in
             let* fields := lift (py_mapping classification) in
             let* analyzed_at := utcnow_isoformat in
             let* earnings_usd := lift (py_get creator_data "totalEarningsUsd" JNull) in
             let* coin_address := lift (py_get creator_data "coinAddress" JNull) in
             let* market_cap := lift (py_get creator_data "marketCap" JNull) in
             let* zora_handle := lift (py_get creator_data "handle" JNull) in
             ret (Return (JDict (dict_display [
               Item "username" username;
               Item "display_name" display_name;
               Item "bio" bio;
               Item "follower_count" follower_count;
               Item "casts_analyzed" (JInt casts_analyzed);
               Spread fields;
               Item "analyzed_at" (JStr analyzed_at);
               Item "earnings_usd" earnings_usd;
               Item "coin_address" coin_address;
               Item "market_cap" market_cap;
               Item "zora_handle" zora_handle]))))
            (fun e =>
               if attempt =? RETRY_ATTEMPTS - 1 then raise e
               else
                 let* _ := asyncio_sleep (RETRY_DELAY * 2 ^ attempt) in
                 ret Continue))
       (ret JNull))
    (fun e =>
       let* username := lift (py_get user "username" JNull) in
       let* display_name := lift (py_get user "display_name" JNull) in
       let* analyzed_at := utcnow_isoformat in
       let* earnings_usd := lift (py_get creator_data "totalEarningsUsd" JNull) in
       let* coin_address := lift (py_get creator_data "coinAddress" JNull) in
       let* market_cap := lift (py_get creator_data "marketCap" JNull) in
       let* zora_handle := lift (py_get creator_data "handle" JNull) in
       ret (JDict (dict_display [
         Item "username" username;
         Item "display_name" display_name;
         Item "error" (JStr (exn_str e));
         Item "analyzed_at" (JStr analyzed_at);
         Item "earnings_usd" earnings_usd;
         Item "coin_address" coin_address;
         Item "market_cap" market_cap;
         Item "zora_handle" zora_handle]))).

(** Steps 3 and 4 of [main]. *)
Definition run_tasks (envs : nat -> World) (tasks : list (json * json))
  : list (result json) :=
  imap (fun i task => fst (classify_creator (fst task) (snd task) (envs i))) tasks.

Definition main_classify (fs : gmap string json) (creators : list json)
           (envs : nat -> World) (order : list nat) : result (gmap string json) :=
  let? classification_tasks := classification_inputs py_str fs creators in
  let? classifications :=
    map_result id (as_completed order (run_tasks envs classification_tasks)) in
  Ok (<[OUTPUT_FILE := JList classifications]> fs).

End Classification.

End Reclassify.

(** ** Instances of the library functions, for running the scripts *)

Module Sample.

(** [repr], exact on [None], booleans, integers, and on the texts
    that need no escaping, and on the lists and dicts made of those. *)
Fixpoint py_repr (v : json) : string :=
  match v with
  | JNull => "None"
  | JBool true => "True"
  | JBool false => "False"
  | JInt n => pretty n
  | JStr s => "'" +:+ s +:+ "'"
  | JList l => "[" +:+ join ", " (map py_repr l) +:+ "]"
  | JDict d =>
      "{" +:+ join ", " (map (fun kv => match kv with
                                        | (k, x) => "'" +:+ k +:+ "': " +:+ py_repr x
                                        end) d) +:+ "}"
  end.

(** [str]: a text is itself, anything else is its [repr]. *)
Definition py_str (v : json) : string :=
  match v with
  | JStr s => s
  | _ => py_repr v
  end.

(** A decoder for the fragment of JSON without escapes in strings and
    without fractions or exponents in numbers.  On a text of the
    fragment it returns the value [json.loads] returns; elsewhere it
    raises a [ValueError] (whose message is not the library's). *)
Definition is_json_ws (c : ascii) : bool :=
  let n := nat_of_ascii c in ((n =? 32) || (n =? 9) || (n =? 10) || (n =? 13))%nat.

Fixpoint skip_ws (s : string) : string :=
  match s with
  | String c s' => if is_json_ws c then skip_ws s' else s
  | EmptyString => EmptyString
  end.

Definition is_digit (c : ascii) : bool :=
  let n := nat_of_ascii c in ((48 <=? n) && (n <=? 57))%nat.

Definition digit_value (c : ascii) : Z := Z.of_nat (nat_of_ascii c) - 48.

(** The characters of a string up to its closing quote. *)
Fixpoint read_string (s : string) : option (string * string) :=
  match s with
  | EmptyString => None
  | String c s' =>
      if Ascii.eqb c "034" then Some (EmptyString, s')
      else if Ascii.eqb c "\" then None
      else if (nat_of_ascii c <? 32)%nat then None
      else match read_string s' with
           | Some (t, rest) => Some (String c t, rest)
           | None => None
           end
  end.

Fixpoint read_digits (acc : Z) (s : string) : Z * string :=
  match s with
  | String c s' => if is_digit c then read_digits (10 * acc + digit_value c) s' else (acc, s)
  | EmptyString => (acc, s)
  end.

Definition ends_integer (s : string) : bool :=
  match s with
  | String c _ => negb (Ascii.eqb c "." || Ascii.eqb c "e" || Ascii.eqb c "E")
  | EmptyString => true
  end.

Definition read_natural (s : string) : option (Z * string) :=
  match s with
  | String c s' =>
      if Ascii.eqb c "0" then
        match s' with
        | String c' _ => if is_digit c' then None
                         else if ends_integer s' then Some (0, s') else None
        | EmptyString => Some (0, s')
        end
      else if is_digit c then
        let '(n, rest) := read_digits (digit_value c) s' in
        if ends_integer rest then Some (n, rest) else None
      else None
  | EmptyString => None
  end.

Definition strip_prefix (p s : string) : option string :=
  if String.prefix p s then Some (String.substring (String.length p) (String.length s - String.length p) s)
  else None.

Fixpoint read_value (fuel : nat) (s : string) : option (json * string) :=
  match fuel with
  | O => None
  | S fuel' =>
      match skip_ws s with
      | EmptyString => None
      | String c s' =>
          if Ascii.eqb c "{" then
            match skip_ws s' with
            | String c' s'' =>
                if Ascii.eqb c' "}" then Some (JDict [], s'')
                else match read_members fuel' [] s' with
                     | Some (d, rest) => Some (JDict d, rest)
                     | None => None
                     end
            | EmptyString => None
            end
          else if Ascii.eqb c "[" then
            match skip_ws s' with
            | String c' s'' =>
                if Ascii.eqb c' "]" then Some (JList [], s'')
                else match read_elements fuel' s' with
                     | Some (l, rest) => Some (JList l, rest)
                     | None => None
                     end
            | EmptyString => None
            end
          else if Ascii.eqb c "034" then
            match read_string s' with
            | Some (t, rest) => Some (JStr t, rest)
            | None => None
            end
          else if Ascii.eqb c "-" then
            match read_natural s' with
            | Some (n, rest) => Some (JInt (- n), rest)
            | None => None
            end
          else if is_digit c then
            match read_natural (String c s') with
            | Some (n, rest) => Some (JInt n, rest)
            | None => None
            end
          else
            match strip_prefix "true" (String c s') with
            | Some rest => Some (JBool true, rest)
            | None =>
                match strip_prefix "false" (String c s') with
                | Some rest => Some (JBool false, rest)
                | None =>
                    match strip_prefix "null" (String c s') with
                    | Some rest => Some (JNull, rest)
                    | None => None
                    end
                end
            end
      end
  end
with read_members (fuel : nat) (acc : dict) (s : string) : option (dict * string) :=
  match fuel with
  | O => None
  | S fuel' =>
      match skip_ws s with
      | String c s' =>
          if Ascii.eqb c "034" then
            match read_string s' with
            | Some (k, rest) =>
                match skip_ws rest with
                | String c1 rest1 =>
                    if Ascii.eqb c1 ":" then
                      match read_value fuel' rest1 with
                      | Some (x, rest2) =>
                          let acc' := dict_set k x acc in
                          match skip_ws rest2 with
                          | String c2 rest3 =>
                              if Ascii.eqb c2 "," then read_members fuel' acc' rest3
                              else if Ascii.eqb c2 "}" then Some (acc', rest3)
                              else None
                          | EmptyString => None
                          end
                      | None => None
                      end
                    else None
                | EmptyString => None
                end
            | None => None
            end
          else None
      | EmptyString => None
      end
  end
with read_elements (fuel : nat) (s : string) : option (list json * string) :=
  match fuel with
  | O => None
  | S fuel' =>
      match read_value fuel' s with
      | Some (x, rest) =>
          match skip_ws rest with
          | String c rest1 =>
              if Ascii.eqb c "," then
                match read_elements fuel' rest1 with
                | Some (l, rest2) => Some (x :: l, rest2)
                | None => None
                end
              else if Ascii.eqb c "]" then Some ([x], rest1)
              else None
          | EmptyString => None
          end
      | None => None
      end
  end.

Definition json_loads (s : string) : result json :=
  match read_value (2 * String.length s + 2) s with
  | Some (v, rest) =>
      match skip_ws rest with
      | EmptyString => Ok v
      | _ => Raise (ValueError "Extra data")
      end
  | None => Raise (ValueError "Expecting value")
  end.

End Sample.

(** ** Concrete runs *)

Module Scenario.

Definition idle : World := mkWorld [] [] [] [] [] ∅ "2025-10-01T12:00:00".

Definition with_http (answers : list http_outcome) : World :=
  mkWorld answers [] [] [] [] ∅ "2025-10-01T12:00:00".

Definition with_gen (answers : list gen_outcome) : World :=
  mkWorld [] [] answers [] [] ∅ "2025-10-01T12:00:00".

Definition rate_limited : http_outcome := HttpResponse (mkResponse 429 (Ok JNull)).
Definition server_error : http_outcome := HttpResponse (mkResponse 500 (Ok JNull)).
Definition timeout : http_outcome := HttpError (Exn "TimeoutError" EmptyString).
Definition ok_body (data : json) : http_outcome := HttpResponse (mkResponse 200 (Ok data)).

Definition bob_profile : json :=
  JDict [("user", JDict [("fid", JInt 7); ("username", JStr "bob");
                         ("display_name", JStr "Bob"); ("follower_count", JInt 12)])].

Definition bob_casts : json :=
  JDict [("casts", JList [JDict [("text", JStr "gm")]])].

(** Two 429 answers, then the profile. *)
Definition two_rate_limits : World :=
  with_http [rate_limited; rate_limited; ok_body bob_profile].

(** A 500 answer first, while the profile would be served next. *)
Definition one_server_error : World :=
  with_http [server_error; ok_body bob_profile].

Definition three_timeouts : World := with_http [timeout; timeout; timeout].

Definition three_server_errors : World :=
  with_http [server_error; server_error; server_error].

Definition not_found : http_outcome := HttpResponse (mkResponse 404 (Ok JNull)).

(** The profile lookup answers 404. *)
Definition unknown_user : World := with_http [not_found].

(** The profile and then the popular casts are served. *)
Definition bob_online : World := with_http [ok_body bob_profile; ok_body bob_casts].

(** A response with prose around the object. *)
Definition prose_before : string := "Here is the classification:" +:+ nl.
Definition prose_after : string := nl +:+ "Hope this helps!".
Definition builder_fields : string :=
  quoted "primary_classification" +:+ ":" +:+ quoted "Builder" +:+ ","
  +:+ quoted "confidence" +:+ ":" +:+ quoted "High" +:+ ","
  +:+ quoted "reasoning" +:+ ":" +:+ quoted "..." +:+ ", "
  +:+ quoted "secondary_traits" +:+ ":[]".
Definition builder_object : string :=
  String lbrace (builder_fields +:+ String rbrace EmptyString).
Definition builder_response : string :=
  prose_before +:+ String lbrace (builder_fields +:+ String rbrace prose_after).
Definition builder_classification : dict :=
  [("primary_classification", JStr "Builder"); ("confidence", JStr "High");
   ("reasoning", JStr "..."); ("secondary_traits", JList [])]%string.

(** A cast whose author has a biography, and one whose author has none. *)
Definition cast_with_bio : json :=
  JDict [("text", JStr "shipping v2");
         ("author", JDict [("profile",
            JDict [("bio", JDict [("text", JStr "Building onchain tools")])])])].

(** The creator alice: her cached casts and her row of the fee data. *)
Definition alice_user : dict :=
  [("fid", JInt 11); ("username", JStr "alice"); ("display_name", JStr "Alice");
   ("pfp_url", JNull); ("follower_count", JInt 1200); ("following_count", JInt 300)]%string.
Definition alice_texts : list json :=
  [JStr "shipping v2"; JStr "new release is out"; JStr "open sourced the indexer"].
Definition alice_cast_data : json :=
  JDict [("cast_texts", JList alice_texts); ("user", JDict alice_user);
         ("casts", JList [cast_with_bio]);
         ("fetched_at", JStr "2025-09-30T08:00:00")].
Definition alice_row : dict :=
  [("handle", JStr "alice_z"); ("totalEarningsUsd", JStr "1500.00");
   ("coinAddress", JStr "0xabc"); ("marketCap", JStr "90000");
   ("socials", JDict [("farcaster", JDict [("username", JStr "alice")])])]%string.

(** The service answers with the builder object inside prose. *)
Definition builder_answer : World := with_gen [GenText (Some builder_response)].


(** The service fails three times: prose without an object, an
    exception, and a response without text. *)
Definition three_bad_answers : World :=
  with_gen [GenText (Some "I cannot classify this user."%string);
            GenError (Exn "ServerError" "503 UNAVAILABLE");
            GenText None].

(** Three more creators: bob with cached casts, carol without a cast
    file, dave with a cast file that holds no cast text. *)
Definition row_of (handle earnings : string) : json :=
  JDict [("handle", JStr handle); ("totalEarningsUsd", JStr earnings);
         ("coinAddress", JStr "0x0"); ("marketCap", JStr "0");
         ("socials", JDict [("farcaster", JDict [("username", JStr handle)])])]%string.
Definition cast_data_of (handle : string) (texts : list json) : json :=
  JDict [("cast_texts", JList texts);
         ("user", JDict [("fid", JInt 1); ("username", JStr handle);
                         ("display_name", JStr handle); ("pfp_url", JNull);
                         ("follower_count", JInt 5); ("following_count", JInt 5)]);
         ("casts", JList (map (fun t => JDict [("text", t)]) texts));
         ("fetched_at", JStr "2025-09-30T08:00:00")]%string.

Definition creators : list json :=
  [JDict alice_row; row_of "bob" "20.50"; row_of "carol" "7"; row_of "dave" "3"].

Definition cast_dir : gmap string json :=
  {[ "casts/alice-casts.json"%string := alice_cast_data;
     "casts/bob-casts.json"%string := cast_data_of "bob" [JStr "gm"];
     "casts/dave-casts.json"%string := cast_data_of "dave" [] ]}.

(** Alice's task gets the builder answer, every other task three bad ones. *)
Definition service (task : nat) : World :=
  match task with
  | O => builder_answer
  | _ => three_bad_answers
  end.

(** The work of the classification stage for these creators, and the
    records the tasks return. *)
Definition tasks : list (json * json) :=
  [(alice_cast_data, JDict alice_row);
   (cast_data_of "bob" [JStr "gm"], row_of "bob" "20.50")].




End Scenario.

(** ** Notions used in the statements *)

(** A computation that never raises. *)
Definition total {A} (m : M A) : Prop :=
  forall w, exists a w', m w = (Ok a, w').

(** A computation that issues at most [n] GET requests. *)
Definition requests_at_most {A} (n : nat) (m : M A) : Prop :=
  forall w, (List.length (http_log (snd (m w))) <= List.length (http_log w) + n)%nat.

(** One round of the loop of [fetch_with_retry]. *)
Definition fetch_round (url : string) (max_retries attempt : Z) : M (flow json) :=
  try_except
    (let* response := session_get url in
     if status response =? 200 then
       let* data := response_json response in
       ret (Return data)
     else if status response =? 429 then
       let wait_time := RETRY_DELAY * 2 ^ attempt in
       let* _ := asyncio_sleep wait_time in
       ret Continue
     else
       ret (Return JNull))
    (fun e =>
       if attempt =? max_retries - 1 then ret (Return JNull)
       else
         let* _ := asyncio_sleep (RETRY_DELAY * 2 ^ attempt) in
         ret Continue).

(** Whether an answer makes the round raise inside its [try]: the
    request fails, or the body of a 200 answer is not JSON. *)
Definition round_raises (o : http_outcome) : bool :=
  match o with
  | HttpError _ => true
  | HttpResponse r =>
      (status r =? 200) && match body r with Raise _ => true | Ok _ => false end
  end.

Definition is_429 (o : http_outcome) : bool :=
  match o with
  | HttpError _ => false
  | HttpResponse r => status r =? 429
  end.

Definition other_status (o : http_outcome) : bool :=
  match o with
  | HttpError _ => false
  | HttpResponse r => negb (status r =? 200) && negb (status r =? 429)
  end.

(** An answer that is a failure: the round raises, or the status is
    neither 200 nor 429. *)
Definition failure (o : http_outcome) : bool := round_raises o || other_status o.

(** The reading of the fetcher in which every failure is retried: three
    failures in a row use three attempts. *)
Definition retries_every_failure : Prop :=
  forall url w o1 o2 o3 rest,
    http_pending w = o1 :: o2 :: o3 :: rest ->
    failure o1 = true -> failure o2 = true -> failure o3 = true ->
    let out := BatchClassify.fetch_with_retry url RETRY_ATTEMPTS w in
    fst out = Ok JNull /\ http_pending (snd out) = rest.

(** The outcome tags as the specification names them, and the reading
    of the ingestion in which every returned tag is one of them. *)
Definition specified_tags : list string :=
  ["fetched"; "cached"; "user_not_found"; "content_fetch_failed"]%string.

Definition tags_as_specified : Prop :=
  forall py_str username w ok tag w',
    BatchClassify.fetch_casts_for_user py_str username w = (Ok (ok, tag), w') ->
    In tag specified_tags.

(** The tags of the code. *)
Definition outcome_tags : list string :=
  ["fetched"; "cached"; "user_fetch_failed"; "casts_fetch_failed"]%string.

(** The snapshot [fetch_casts_for_user] writes to the cast file. *)
Definition snapshot (user casts : json) (cast_texts : list json) (fetched_at : string)
  : json :=
  let field k := match user with
                 | JDict d => match dict_lookup k d with Some x => x | None => JNull end
                 | _ => JNull
                 end in
  JDict [("cast_texts", JList cast_texts);
         ("user", JDict [("fid", field "fid"); ("username", field "username");
                         ("display_name", field "display_name");
                         ("pfp_url", field "pfp_url");
                         ("follower_count", field "follower_count");
                         ("following_count", field "following_count")]);
         ("casts", casts);
         ("fetched_at", JStr fetched_at)]%string.

Definition set_files (fs : gmap string json) (w : World) : World :=
  mkWorld (http_pending w) (http_log w) (gen_pending w) (gen_log w) (slept w) fs (now w).

(** *** Dictionaries and the biography *)

(** [d.get(k)] on the entries of a dict. *)
Definition get (d : dict) (k : string) : json :=
  match dict_lookup k d with Some x => x | None => JNull end.




(** Whether an entry of a dict display defines key [k], and the value
    the display gives to [k]: the last entry that defines it. *)
Definition entry_has (k : string) (e : entry) : bool :=
  match e with
  | Item k' _ => String.eqb k k'
  | Spread m => has_key k m
  end.

Definition entry_value (k : string) (e : entry) : option json :=
  match e with
  | Item k' v => if String.eqb k k' then Some v else None
  | Spread m => dict_lookup k m
  end.

Fixpoint display_value (k : string) (es : list entry) : option json :=
  match es with
  | [] => None
  | e :: es' =>
      match display_value k es' with
      | Some v => Some v
      | None => entry_value k e
      end
  end.

(** One step of the evaluation of a dict display. *)
Definition display_step (acc : dict) (e : entry) : dict :=
  match e with
  | Item k v => dict_set k v acc
  | Spread m => dict_update acc m
  end.

(** A dict has each key once. *)
Definition distinct_keys (d : dict) : Prop := NoDup (keys d).

Definition spreads_distinct (e : entry) : Prop :=
  match e with
  | Item _ _ => True
  | Spread m => distinct_keys m
  end.

(** *** The classification records *)

(** The four entries both scripts add from the creator's earnings data. *)
Definition financial_entries (creator : dict) : list entry :=
  [Item "earnings_usd" (get creator "totalEarningsUsd");
   Item "coin_address" (get creator "coinAddress");
   Item "market_cap" (get creator "marketCap");
   Item "zora_handle" (get creator "handle")]%string.


(** The record of a successful classification: the fixed entries, the
    decoded fields spread over them, the timestamp, and then [extra]. *)
Definition success_record (user : dict) (bio : json) (cast_texts : list json)
           (fields : dict) (analyzed_at : string) (extra : list entry) : dict :=
  dict_display ([Item "username" (get user "username");
                 Item "display_name" (get user "display_name");
                 Item "bio" bio;
                 Item "follower_count" (get user "follower_count");
                 Item "casts_analyzed" (JInt (Z.of_nat (List.length cast_texts)));
                 Spread fields;
                 Item "analyzed_at" (JStr analyzed_at)]%string ++ extra).

(** The record of a failed classification. *)
Definition error_record (user : dict) (message : string) (analyzed_at : string)
           (extra : list entry) : dict :=
  dict_display ([Item "username" (get user "username");
                 Item "display_name" (get user "display_name");
                 Item "error" (JStr message);
                 Item "analyzed_at" (JStr analyzed_at)]%string ++ extra).

(** What one round of the retry loop decodes from the answer of the
    service: the mapping to spread, or the exception of the round. *)
Definition decoded (json_loads : string -> result json) (o : gen_outcome)
  : result dict :=
  match o with
  | GenError e => Raise e
  | GenText text =>
      let? classification := parse_response json_loads text in
      py_mapping classification
  end.

(** The answer the next call of the service gets, and the world after
    the call and after a sleep. *)
Definition next_answer (w : World) : gen_outcome :=
  match gen_pending w with
  | [] => GenError (Exn "ServerError" "service unavailable")
  | o :: _ => o
  end.

Definition asked (prompt : string) (w : World) : World :=
  mkWorld (http_pending w) (http_log w) (tl (gen_pending w))
          (gen_log w ++ [prompt]) (slept w) (files w) (now w).

Definition after_sleep (d : Z) (w : World) : World :=
  mkWorld (http_pending w) (http_log w) (gen_pending w) (gen_log w)
          (slept w ++ [d]) (files w) (now w).

(** The cast data reads as a user object, a list of cast texts and a
    biography: the values [classify_creator] starts from. *)
Definition reads_as (cast_data : json) (user : dict) (cast_texts : list json)
           (bio : json) : Prop :=
  py_get cast_data "cast_texts" (JList []) = Ok (JList cast_texts)
  /\ py_get cast_data "user" (JDict []) = Ok (JDict user)
  /\ exists casts,
       py_get cast_data "casts" (JList []) = Ok casts /\ extract_bio casts = Ok bio.

(** One round of the retry loop of [BatchClassify.classify_creator]. *)
Definition batch_round (json_loads : string -> result json)
           (user bio cast_texts : json) (prompt : string) (attempt : Z)
  : M (flow json) :=
  try_except
    (let* text := generate_content prompt in
     let* classification := lift (parse_response json_loads text) in
     let* username := lift (py_get user "username" JNull) in
     let* display_name := lift (py_get user "display_name" JNull) in
     let* follower_count := lift (py_get user "follower_count" JNull) in
     let* casts_analyzed := lift (py_len cast_texts) in
     let* fields := lift (py_mapping classification) in
     let* analyzed_at := utcnow_isoformat in
     ret (Return (JDict (dict_display [
       Item "username" username;
       Item "display_name" display_name;
       Item "bio" bio;
       Item "follower_count" follower_count;
       Item "casts_analyzed" (JInt casts_analyzed);
       Spread fields;
       Item "analyzed_at" (JStr analyzed_at)]))))
    (fun e =>
       if attempt =? RETRY_ATTEMPTS - 1 then raise e
       else
         let* _ := asyncio_sleep (RETRY_DELAY * 2 ^ attempt) in
         ret Continue).

(** One round of the retry loop of [Reclassify.classify_creator]. *)
Definition reclassify_round (json_loads : string -> result json)
           (user bio cast_texts creator_data : json) (prompt : string) (attempt : Z)
  : M (flow json) :=
  try_except
    (let* text := generate_content prompt in
     let* classification := lift (parse_response json_loads text) in
     let* username := lift (py_get user "username" JNull) in
     let* display_name := lift (py_get user "display_name" JNull) in
     let* follower_count := lift (py_get user "follower_count" JNull) in
     let* casts_analyzed := lift (py_len cast_texts) in
     let* fields := lift (py_mapping classification) in
     let* analyzed_at := utcnow_isoformat in
     let* earnings_usd := lift (py_get creator_data "totalEarningsUsd" JNull) in
     let* coin_address := lift (py_get creator_data "coinAddress" JNull) in
     let* market_cap := lift (py_get creator_data "marketCap" JNull) in
     let* zora_handle := lift (py_get creator_data "handle" JNull) in
     ret (Return (JDict (dict_display [
       Item "username" username;
       Item "display_name" display_name;
       Item "bio" bio;
       Item "follower_count" follower_count;
       Item "casts_analyzed" (JInt casts_analyzed);
       Spread fields;
       Item "analyzed_at" (JStr analyzed_at);
       Item "earnings_usd" earnings_usd;
       Item "coin_address" coin_address;
       Item "market_cap" market_cap;
       Item "zora_handle" zora_handle]))))
    (fun e =>
       if attempt =? RETRY_ATTEMPTS - 1 then raise e
       else
         let* _ := asyncio_sleep (RETRY_DELAY * 2 ^ attempt) in
         ret Continue).

(** The retry loop of [BatchClassify.classify_creator] with its outer
    handler, once user, biography, cast texts and prompt are known. *)
Definition batch_loop (json_loads : string -> result json)
           (user bio cast_texts : json) (prompt : string) : M json :=
  try_except
    (for_each (range RETRY_ATTEMPTS)
       (batch_round json_loads user bio cast_texts prompt) (ret JNull))
    (fun e =>
       let* username := lift (py_get user "username" JNull) in
       let* display_name := lift (py_get user "display_name" JNull) in
       let* analyzed_at := utcnow_isoformat in
       ret (JDict (dict_display [
         Item "username" username;
         Item "display_name" display_name;
         Item "error" (JStr (exn_str e));
         Item "analyzed_at" (JStr analyzed_at)]))).

(** The same for [Reclassify.classify_creator]. *)
Definition reclassify_loop (json_loads : string -> result json)
           (user bio cast_texts creator_data : json) (prompt : string) : M json :=
  try_except
    (for_each (range RETRY_ATTEMPTS)
       (reclassify_round json_loads user bio cast_texts creator_data prompt)
       (ret JNull))
    (fun e =>
       let* username := lift (py_get user "username" JNull) in
       let* display_name := lift (py_get user "display_name" JNull) in
       let* analyzed_at := utcnow_isoformat in
       let* earnings_usd := lift (py_get creator_data "totalEarningsUsd" JNull) in
       let* coin_address := lift (py_get creator_data "coinAddress" JNull) in
       let* market_cap := lift (py_get creator_data "marketCap" JNull) in
       let* zora_handle := lift (py_get creator_data "handle" JNull) in
       ret (JDict (dict_display [
         Item "username" username;
         Item "display_name" display_name;
         Item "error" (JStr (exn_str e));
         Item "analyzed_at" (JStr analyzed_at);
         Item "earnings_usd" earnings_usd;
         Item "coin_address" coin_address;
         Item "market_cap" market_cap;
         Item "zora_handle" zora_handle]))).

(** The prompt built from a user object, a biography and cast texts. *)
Definition prompt_of (py_str : json -> string) (user : dict) (bio : json)
           (cast_texts : list json) : string :=
  match build_prompt py_str (JDict user) bio (JList cast_texts) with
  | Ok prompt => prompt
  | Raise _ => EmptyString
  end.

(** The outcome of the three rounds of the retry loop, read off the
    answers of the service: the record of the first round that decodes,
    or the error record of the third exception. *)
Definition classify_outcome (json_loads : string -> result json)
           (user : dict) (bio : json) (cast_texts : list json) (prompt : string)
           (extra : list entry) (w : World) : result json * World :=
  let w1 := after_sleep (RETRY_DELAY * 2 ^ 0) (asked prompt w) in
  let w2 := after_sleep (RETRY_DELAY * 2 ^ 1) (asked prompt w1) in
  match decoded json_loads (next_answer w) with
  | Ok fields =>
      (Ok (JDict (success_record user bio cast_texts fields (now w) extra)),
       asked prompt w)
  | Raise _ =>
      match decoded json_loads (next_answer w1) with
      | Ok fields =>
          (Ok (JDict (success_record user bio cast_texts fields (now w) extra)),
           asked prompt w1)
      | Raise _ =>
          match decoded json_loads (next_answer w2) with
          | Ok fields =>
              (Ok (JDict (success_record user bio cast_texts fields (now w) extra)),
               asked prompt w2)
          | Raise e =>
              (Ok (JDict (error_record user (exn_str e) (now w) extra)),
               asked prompt w2)
          end
      end
  end.


(** The keys every success record has besides the decoded fields. *)
Definition success_keys : list string :=
  ["username"; "display_name"; "bio"; "follower_count"; "casts_analyzed";
   "analyzed_at"]%string.

Definition is_error_record (record : dict) : Prop :=
  has_key "error" record = true /\ has_key "primary_classification" record = false.

Definition is_success_record (fields record : dict) : Prop :=
  Forall (fun k => has_key k record = true) success_keys
  /\ (forall k, has_key k fields = true -> has_key k record = true)
  /\ has_key "primary_classification" record = has_key "primary_classification" fields
  /\ has_key "error" record = has_key "error" fields.

(** *** The stage that collects the results *)



(** ** The summaries the [main]s print *)

(** [sum(1 for x in xs if p x)] and [len([x for x in xs if p x])]. *)
Definition count_if {A} (p : A -> bool) (xs : list A) : Z :=
  Z.of_nat (List.length (List.filter p xs)).

(** The three numbers of the line [Summary: ... fetched, ... cached,
    ... errors] of step 3 of [BatchClassify.main], from the results of
    [fetch_casts_for_user]. *)
Definition fetch_summary (results : list (bool * string)) : Z * Z * Z :=
  let fetched :=
    count_if (fun r => fst r && String.eqb (snd r) "fetched") results in
  let cached :=
    count_if (fun r => fst r && String.eqb (snd r) "cached") results in
  let errors := count_if (fun r => negb (fst r)) results in
  (fetched, cached, errors).

(** [c.get(k)] is truthy, for a record [c] of the result list. *)
Definition record_has (k : string) (c : dict) : bool := truthy (get c k).

(** The numbers after [Total classified:] and [Errors:] of both
    [main]s, over the records collected. *)
Definition total_classified (classifications : list dict) : Z :=
  count_if (fun c => negb (record_has "error" c)) classifications.

Definition total_errors (classifications : list dict) : Z :=
  count_if (fun c => record_has "error" c) classifications.

(** [successful = [c for c in classifications if c.get('primary_classification')]]. *)
Definition successful (classifications : list dict) : list dict :=
  List.filter (record_has "primary_classification") classifications.

(** The results of the ingestion of some user in some world. *)
Definition ingest_result (r : bool * string) : Prop :=
  exists py_str username w w',
    BatchClassify.fetch_casts_for_user py_str username w = (Ok r, w').

(** ** Effects a computation leaves alone *)

(** What a computation of the fetcher changes in the world: it asks
    [url] some number of times, taking that many answers (as far as
    there are any), and it may sleep; the service, the files and the
    clock are as before. *)
Definition only_requests (url : string) (w w' : World) : Prop :=
  gen_pending w' = gen_pending w
  /\ gen_log w' = gen_log w
  /\ files w' = files w
  /\ now w' = now w
  /\ (exists n, http_log w' = http_log w ++ repeat url n
                /\ http_pending w' = drop n (http_pending w))
  /\ exists delays, slept w' = slept w ++ delays.

(** What a classification call changes in the world: it sends
    [prompt] one to three times, taking that many answers, and sleeps
    between the calls; network, files and clock are as before. *)
Definition only_asks (prompt : string) (w w' : World) : Prop :=
  http_pending w' = http_pending w
  /\ http_log w' = http_log w
  /\ files w' = files w
  /\ now w' = now w
  /\ exists n, (1 <= n <= 3)%nat
       /\ gen_log w' = gen_log w ++ repeat prompt n
       /\ gen_pending w' = drop n (gen_pending w)
       /\ slept w' = slept w ++ take (n - 1) [RETRY_DELAY * 2 ^ 0; RETRY_DELAY * 2 ^ 1].



(** More concrete runs. *)
Module Cases.

(** A 200 answer whose body is an object without the key asked for. *)
Definition other_body : json := JDict [("next", JDict [("cursor", JNull)])].

(** A 200 answer whose body is a list. *)
Definition list_body : json := JList [JInt 1].

(** The profile is served, and then an empty list of popular casts. *)
Definition erin_profile : json :=
  JDict [("user", JDict [("fid", JInt 9); ("username", JStr "erin")])].
Definition erin_online : World :=
  Scenario.with_http [Scenario.ok_body erin_profile;
                      Scenario.ok_body (JDict [("casts", JList [])])].

Definition three_rate_limits : World :=
  Scenario.with_http [Scenario.rate_limited; Scenario.rate_limited; Scenario.rate_limited].

(** The fee data: a null row, alice, a row whose socials is a text, a
    row without farcaster, a row with an empty username, and bob. *)
Definition fee_rows : list json :=
  [JNull; JDict Scenario.alice_row;
   JDict [("handle", JStr "x"); ("socials", JStr "none")];
   JDict [("handle", JStr "y"); ("socials", JDict [("twitter", JStr "y")])];
   JDict [("handle", JStr "z");
          ("socials", JDict [("farcaster", JDict [("username", JStr EmptyString)])])];
   Scenario.row_of "bob" "20.50"].
Definition fee_data : json := JList fee_rows.

(** Cast data whose user is null. *)
Definition null_user_cast_data : json :=
  JDict [("cast_texts", JList [JStr "gm"]); ("user", JNull); ("casts", JList [])].

(** A response with two objects. *)
Definition two_objects : string :=
  "First {" +:+ quoted "a" +:+ ":1} and then {" +:+ quoted "b" +:+ ":2}.".

(** The model answers with an object that names a username and a
    timestamp of its own. *)
Definition overriding_answer : World :=
  Scenario.with_gen [GenText (Some (
    "{" +:+ quoted "primary_classification" +:+ ":" +:+ quoted "Creative" +:+ ","
    +:+ quoted "username" +:+ ":" +:+ quoted "mallory" +:+ ","
    +:+ quoted "analyzed_at" +:+ ":" +:+ quoted "1999" +:+ "}"))].

Definition overriding_fields : dict :=
  [("primary_classification", JStr "Creative"); ("username", JStr "mallory");
   ("analyzed_at", JStr "1999")]%string.

End Cases.

(** ** The classification breakdown the [main]s print *)

(** Whether a value can be the key of a dict. *)
Definition hashable (v : json) : bool :=
  match v with
  | JList _ | JDict _ => false
  | _ => true
  end.

(** [a == b] on hashable values; [True] equals [1] and [False] equals [0]. *)
Definition key_eqb (a b : json) : bool :=
  match a, b with
  | JNull, JNull => true
  | JStr s, JStr t => String.eqb s t
  | JInt n, JInt m => n =? m
  | JBool x, JBool y => Bool.eqb x y
  | JBool x, JInt n | JInt n, JBool x => n =? (if x then 1 else 0)
  | _, _ => false
  end.

(** [counts[cat] = counts.get(cat, 0) + 1]. *)
Fixpoint bump (cat : json) (counts : list (json * Z)) : list (json * Z) :=
  match counts with
  | [] => [(cat, 1)]
  | (k, n) :: rest =>
      if key_eqb cat k then (k, n + 1) :: rest else (k, n) :: bump cat rest
  end.

(** The loop [for c in successful] that fills [counts]. *)
Fixpoint count_categories (records : list dict) (counts : list (json * Z))
  : result (list (json * Z)) :=
  match records with
  | [] => Ok counts
  | c :: rest =>
      match dict_lookup "primary_classification" c with
      | None => Raise (KeyError "primary_classification")
      | Some cat =>
          if hashable cat then count_categories rest (bump cat counts)
          else Raise (TypeError ("unhashable type: " +:+ type_name cat))
      end
  end.

(** [sorted(counts.items(), key=lambda x: x[1], reverse=True)]: by
    count, largest first, items of equal count in their order. *)
Fixpoint insert_by_count (x : json * Z) (sorted : list (json * Z)) : list (json * Z) :=
  match sorted with
  | [] => [x]
  | y :: ys => if snd y <=? snd x then x :: y :: ys else y :: insert_by_count x ys
  end.

Fixpoint sorted_by_count (items : list (json * Z)) : list (json * Z) :=
  match items with
  | [] => []
  | x :: xs => insert_by_count x (sorted_by_count xs)
  end.

(** The lines of the breakdown, without the percentages. *)
Definition classification_breakdown (classifications : list dict)
  : result (list (json * Z)) :=
  let? counts := count_categories (successful classifications) [] in
  Ok (sorted_by_count counts).

Definition sum_counts (counts : list (json * Z)) : Z :=
  fold_right (fun kv acc => snd kv + acc) 0 counts.

Fixpoint descending (items : list (json * Z)) : Prop :=
  match items with
  | [] => True
  | x :: xs => Forall (fun y => snd y <= snd x) xs /\ descending xs
  end.

(** * Properties *)

(** ** The monad and the loops *)

Lemma range_attempts : range RETRY_ATTEMPTS = [0; 1; 2].
Proof. reflexivity. Qed.

Lemma for_each_total {A} (xs : list Z) (body : Z -> M (flow A)) (after : M A) :
  (forall x, total (body x)) -> total after -> total (for_each xs body after).
Proof.
  intros Hbody Hafter. induction xs as [|x xs IH]; intros w; simpl.
  - apply Hafter.
  - destruct (Hbody x w) as (f & w' & ->). destruct f as [|a].
    + apply IH.
    + eauto.
Qed.

Lemma for_each_requests {A} (xs : list Z) (body : Z -> M (flow A)) (after : M A) :
  (forall x, requests_at_most 1 (body x)) -> requests_at_most 0 after ->
  requests_at_most (List.length xs) (for_each xs body after).
Proof.
  intros Hbody Hafter. induction xs as [|x xs IH]; intros w; simpl.
  - apply Hafter.
  - specialize (Hbody x w). destruct (body x w) as [[[|a]|e] w']; simpl in *.
    + specialize (IH w'). lia.
    + lia.
    + lia.
Qed.

(** ** The retrying fetcher *)

Lemma fetch_with_retry_rounds url max_retries :
  BatchClassify.fetch_with_retry url max_retries =
  for_each (range max_retries) (fetch_round url max_retries) (ret JNull).
Proof. reflexivity. Qed.

Lemma fetch_round_total url max_retries attempt :
  total (fetch_round url max_retries attempt).
Proof.
  intros [hp hl gp gl sl fs nw].
  unfold fetch_round, try_except, bind, session_get, response_json, lift,
    asyncio_sleep, ret; simpl.
  destruct hp as [|[e|[st [data|e]]] hp]; simpl;
    repeat (match goal with |- context [if ?b then _ else _] => destruct b end; simpl);
    eauto.
Qed.

Lemma fetch_round_requests url max_retries attempt :
  requests_at_most 1 (fetch_round url max_retries attempt).
Proof.
  intros [hp hl gp gl sl fs nw].
  unfold fetch_round, try_except, bind, session_get, response_json, lift,
    asyncio_sleep, ret; simpl.
  destruct hp as [|[e|[st [data|e]]] hp]; simpl;
    repeat (match goal with |- context [if ?b then _ else _] => destruct b end; simpl);
    rewrite length_app; simpl; lia.
Qed.

Lemma fetch_with_retry_total url max_retries :
  total (BatchClassify.fetch_with_retry url max_retries).
Proof.
  rewrite fetch_with_retry_rounds. apply for_each_total.
  - intros x. apply fetch_round_total.
  - intros w. unfold ret. eauto.
Qed.

Lemma fetch_with_retry_requests url :
  requests_at_most 3 (BatchClassify.fetch_with_retry url RETRY_ATTEMPTS).
Proof.
  rewrite fetch_with_retry_rounds.
  change 3%nat with (List.length (range RETRY_ATTEMPTS)).
  apply for_each_requests.
  - intros x. apply fetch_round_requests.
  - intros w. simpl. lia.
Qed.

Ltac run_fetch :=
  unfold BatchClassify.fetch_with_retry; rewrite range_attempts;
  unfold for_each, try_except, bind, session_get, response_json, lift,
    asyncio_sleep, ret; simpl.

(** C3.  Two 429 answers and then a 200 answer with a JSON body: the
    fetcher returns that body after three requests, having slept twice,
    for RETRY_DELAY * 2^0 and then RETRY_DELAY * 2^1 seconds, the second
    sleep longer than the first.  The 429 rounds use up the attempts
    that failures use up: when the third request fails instead, the
    fetcher gives up with None without a further sleep or request, and
    no run issues more than three requests. *)
Theorem fetch_with_retry_after_two_429 (url : string) (w : World)
    (o1 o2 : http_outcome) (data : json) (rest : list http_outcome)
    (Hpending : http_pending w =
                  o1 :: o2 :: HttpResponse (mkResponse 200 (Ok data)) :: rest)
    (H1 : is_429 o1 = true) (H2 : is_429 o2 = true) :
  BatchClassify.fetch_with_retry url RETRY_ATTEMPTS w =
    (Ok data,
     mkWorld rest (http_log w ++ [url; url; url]) (gen_pending w) (gen_log w)
             (slept w ++ [RETRY_DELAY * 2 ^ 0; RETRY_DELAY * 2 ^ 1])
             (files w) (now w))
  /\ RETRY_DELAY * 2 ^ 0 < RETRY_DELAY * 2 ^ 1
  /\ (forall o3 w3,
        round_raises o3 = true ->
        http_pending w3 = o1 :: o2 :: o3 :: rest ->
        BatchClassify.fetch_with_retry url RETRY_ATTEMPTS w3 =
          (Ok JNull,
           mkWorld rest (http_log w3 ++ [url; url; url]) (gen_pending w3) (gen_log w3)
                   (slept w3 ++ [RETRY_DELAY * 2 ^ 0; RETRY_DELAY * 2 ^ 1])
                   (files w3) (now w3)))
  /\ requests_at_most 3 (BatchClassify.fetch_with_retry url RETRY_ATTEMPTS).
Proof.
  destruct o1 as [e1|[s1 b1]]; [discriminate|].
  destruct o2 as [e2|[s2 b2]]; [discriminate|].
  simpl in H1, H2. apply Z.eqb_eq in H1, H2. subst s1 s2.
  split; [|split; [|split]].
  - destruct w as [hp hl gp gl sl fs nw]. simpl in Hpending. subst hp.
    run_fetch. rewrite <- !app_assoc. reflexivity.
  - reflexivity.
  - intros o3 [hp hl gp gl sl fs nw] Hraise Hp. simpl in Hp. subst hp.
    destruct o3 as [e3|[s3 [d3|e3]]]; simpl in Hraise.
    + run_fetch. rewrite <- !app_assoc. reflexivity.
    + rewrite andb_false_r in Hraise. discriminate.
    + rewrite andb_true_r in Hraise. apply Z.eqb_eq in Hraise. subst s3.
      run_fetch. rewrite <- !app_assoc. reflexivity.
  - apply fetch_with_retry_requests.
Qed.

Lemma fetch_with_retry_after_two_429_witness :
  BatchClassify.fetch_with_retry "u" RETRY_ATTEMPTS Scenario.two_rate_limits =
    (Ok Scenario.bob_profile,
     mkWorld [] ["u"; "u"; "u"] [] [] [2; 4] ∅ "2025-10-01T12:00:00").
Proof.
  exact (proj1 (fetch_with_retry_after_two_429 "u" Scenario.two_rate_limits
                  Scenario.rate_limited Scenario.rate_limited Scenario.bob_profile []
                  eq_refl eq_refl eq_refl)).
Defined.

(** C4 as stated does not hold: an answer with a status other than 200
    and 429 is not retried.  Of three 500 answers in a row the fetcher
    uses one and returns None; the other two stay unasked. *)
Lemma fetch_with_retry_gives_up_on_status_500 : ~ retries_every_failure.
Proof.
  intros Hclaim.
  destruct (Hclaim "u"%string Scenario.three_server_errors
              Scenario.server_error Scenario.server_error Scenario.server_error []
              eq_refl eq_refl eq_refl eq_refl) as [_ Hrest].
  vm_compute in Hrest. discriminate.
Qed.

(** C4, amended.  The fetcher never raises, whatever the answers and
    whatever the attempt count, and issues at most three requests.  A
    request that raises (timeout, connection error, a 200 answer whose
    body is not JSON) is retried: after three such rounds, with sleeps of
    RETRY_DELAY * 2^0 and RETRY_DELAY * 2^1 seconds between them, the
    fetcher returns None.  An answer with a status other than 200 and
    429 is not retried: the fetcher returns None at once. *)
Theorem fetch_with_retry_failure_signal (url : string) (w : World) :
  (forall max_retries,
      exists v w', BatchClassify.fetch_with_retry url max_retries w = (Ok v, w'))
  /\ requests_at_most 3 (BatchClassify.fetch_with_retry url RETRY_ATTEMPTS)
  /\ (forall o1 o2 o3 rest,
        http_pending w = o1 :: o2 :: o3 :: rest ->
        round_raises o1 = true -> round_raises o2 = true -> round_raises o3 = true ->
        BatchClassify.fetch_with_retry url RETRY_ATTEMPTS w =
          (Ok JNull,
           mkWorld rest (http_log w ++ [url; url; url]) (gen_pending w) (gen_log w)
                   (slept w ++ [RETRY_DELAY * 2 ^ 0; RETRY_DELAY * 2 ^ 1])
                   (files w) (now w)))
  /\ (forall o rest,
        http_pending w = o :: rest ->
        other_status o = true ->
        BatchClassify.fetch_with_retry url RETRY_ATTEMPTS w =
          (Ok JNull,
           mkWorld rest (http_log w ++ [url]) (gen_pending w) (gen_log w)
                   (slept w) (files w) (now w))).
Proof.
  split; [|split; [|split]].
  - intros max_retries. apply fetch_with_retry_total.
  - apply fetch_with_retry_requests.
  - intros o1 o2 o3 rest Hp H1 H2 H3.
    destruct w as [hp hl gp gl sl fs nw]. simpl in Hp. subst hp.
    assert (Hcase : forall o, round_raises o = true ->
              (exists e, o = HttpError e) \/
              (exists e, o = HttpResponse (mkResponse 200 (Raise e)))).
    { intros [e|[s [d|e]]] H; simpl in H.
      - left. eauto.
      - rewrite andb_false_r in H. discriminate.
      - rewrite andb_true_r in H. apply Z.eqb_eq in H. subst s. right. eauto. }
    destruct (Hcase _ H1) as [[e1 ->]|[e1 ->]];
      destruct (Hcase _ H2) as [[e2 ->]|[e2 ->]];
      destruct (Hcase _ H3) as [[e3 ->]|[e3 ->]];
      run_fetch; rewrite <- !app_assoc; reflexivity.
  - intros o rest Hp Ho.
    destruct w as [hp hl gp gl sl fs nw]. simpl in Hp. subst hp.
    destruct o as [e|[s b]]; simpl in Ho; [discriminate|].
    apply andb_prop in Ho as [H200 H429].
    apply negb_true_iff in H200, H429.
    unfold BatchClassify.fetch_with_retry; rewrite range_attempts.
    unfold for_each, try_except, bind, session_get, response_json, lift,
      asyncio_sleep, ret. cbn [http_pending status]. rewrite H200, H429. reflexivity.
Qed.

Lemma fetch_with_retry_failure_signal_witness :
  BatchClassify.fetch_with_retry "u" RETRY_ATTEMPTS Scenario.three_timeouts =
    (Ok JNull, mkWorld [] ["u"; "u"; "u"] [] [] [2; 4] ∅ "2025-10-01T12:00:00")
  /\ BatchClassify.fetch_with_retry "u" RETRY_ATTEMPTS Scenario.one_server_error =
    (Ok JNull,
     mkWorld [Scenario.ok_body Scenario.bob_profile] ["u"] [] [] [] ∅
             "2025-10-01T12:00:00").
Proof.
  split.
  - exact (proj1 (proj2 (proj2
             (fetch_with_retry_failure_signal "u" Scenario.three_timeouts)))
             Scenario.timeout Scenario.timeout Scenario.timeout []
             eq_refl eq_refl eq_refl eq_refl).
  - exact (proj2 (proj2 (proj2
             (fetch_with_retry_failure_signal "u" Scenario.one_server_error)))
             Scenario.server_error [Scenario.ok_body Scenario.bob_profile]
             eq_refl eq_refl).
Defined.

(** ** The per-user ingestion *)

Ltac split_match :=
  match goal with
  | |- context [match ?x with _ => _ end] => destruct x eqn:?
  | H : context [match ?x with _ => _ end] |- _ => destruct x eqn:?
  end.

(** C5 as stated does not hold for the tags themselves: when the
    profile lookup fails the tag is user_fetch_failed, which is none of
    fetched, cached, user_not_found, content_fetch_failed. *)
Lemma fetch_casts_for_user_other_tags : ~ tags_as_specified.
Proof.
  intros Hclaim.
  specialize (Hclaim Sample.py_str (JStr "bob") Scenario.unknown_user
                false "user_fetch_failed"%string).
  edestruct Hclaim as [H|[H|[H|[H|[]]]]]; [vm_compute; reflexivity|..]; discriminate.
Qed.

(** C5, amended.  The ingestion of one user returns a success flag and
    a tag among fetched, cached, user_fetch_failed, casts_fetch_failed.
    When the cast file exists it returns (True, cached) and leaves the
    world as it is.  Otherwise it looks the profile up, in one call of
    the fetcher; when that yields nothing it returns
    (False, user_fetch_failed) and stops.  Otherwise it fetches the
    popular casts of the profile's fid, in one call; when that yields
    None it returns (False, casts_fetch_failed).  Otherwise it writes
    the snapshot to the cast file and returns (True, fetched). *)
Theorem fetch_casts_for_user_outcome (py_str : json -> string) (username : json)
    (w : World) :
  let path := cast_file py_str username in
  let run := BatchClassify.fetch_casts_for_user py_str username w in
  (is_Some (files w !! path) -> run = (Ok (true, "cached"%string), w))
  /\ (forall user w1,
        files w !! path = None ->
        BatchClassify.get_user_by_username py_str username w = (Ok user, w1) ->
        truthy user = false ->
        run = (Ok (false, "user_fetch_failed"%string), w1))
  /\ (forall user w1 fid w2,
        files w !! path = None ->
        BatchClassify.get_user_by_username py_str username w = (Ok user, w1) ->
        truthy user = true ->
        py_getitem user "fid" = Ok fid ->
        BatchClassify.get_popular_casts py_str fid 10 w1 = (Ok JNull, w2) ->
        run = (Ok (false, "casts_fetch_failed"%string), w2))
  /\ (forall user w1 fid casts w2 items cast_texts,
        files w !! path = None ->
        BatchClassify.get_user_by_username py_str username w = (Ok user, w1) ->
        truthy user = true ->
        py_getitem user "fid" = Ok fid ->
        BatchClassify.get_popular_casts py_str fid 10 w1 = (Ok casts, w2) ->
        casts <> JNull ->
        py_iter casts = Ok items ->
        map_result (fun cast => py_get cast "text" (JStr EmptyString)) items = Ok cast_texts ->
        run = (Ok (true, "fetched"%string),
               set_files (<[path := snapshot user casts cast_texts (now w2)]> (files w2)) w2))
  /\ (forall ok tag w',
        run = (Ok (ok, tag), w') ->
        In tag outcome_tags
        /\ ok = (String.eqb tag "fetched" || String.eqb tag "cached")).
Proof.
  intros path run. subst run.
  unfold BatchClassify.fetch_casts_for_user, bind, file_exists. fold path.
  cbn [fst snd].
  split; [|split; [|split; [|split]]].
  - intros Hsome. rewrite bool_decide_eq_true_2 by assumption. reflexivity.
  - intros user w1 Hnone Huser Hfalsy.
    rewrite bool_decide_eq_false_2 by (rewrite Hnone; apply is_Some_None).
    rewrite Huser, Hfalsy. reflexivity.
  - intros user w1 fid w2 Hnone Huser Htruthy Hfid Hcasts.
    rewrite bool_decide_eq_false_2 by (rewrite Hnone; apply is_Some_None).
    rewrite Huser, Htruthy. unfold lift. cbn [negb]. rewrite Hfid, Hcasts. reflexivity.
  - intros user w1 fid casts w2 items cast_texts
           Hnone Huser Htruthy Hfid Hcasts Hnot Hitems Htexts.
    rewrite bool_decide_eq_false_2 by (rewrite Hnone; apply is_Some_None).
    rewrite Huser, Htruthy. unfold lift. cbn [negb]. rewrite Hfid, Hcasts.
    assert (is_none casts = false) as -> by (destruct casts; simpl; congruence).
    unfold utcnow_isoformat, write_json, ret. rewrite Hitems, Htexts.
    destruct user as [| | | | |d]; try discriminate. reflexivity.
  - intros ok tag w' Hrun. unfold outcome_tags.
    unfold lift, utcnow_isoformat, write_json, ret in Hrun.
    repeat (split_match; try discriminate);
      injection Hrun as <- <- <-; simpl; tauto.
Qed.

Lemma fetch_casts_for_user_outcome_witness :
  BatchClassify.fetch_casts_for_user Sample.py_str (JStr "bob") Scenario.bob_online =
    (Ok (true, "fetched"%string),
     mkWorld []
             ["https://api.neynar.com/v2/farcaster/user/by_username?username=bob";
              "https://api.neynar.com/v2/farcaster/feed/user/popular?fid=7&limit=10"]%string
             [] [] []
             {[ "casts/bob-casts.json"%string :=
                  snapshot (JDict [("fid", JInt 7); ("username", JStr "bob");
                                   ("display_name", JStr "Bob");
                                   ("follower_count", JInt 12)])
                           (JList [JDict [("text", JStr "gm")]])
                           [JStr "gm"] "2025-10-01T12:00:00" ]}
             "2025-10-01T12:00:00").
Proof.
  refine (eq_trans
            (proj1 (proj2 (proj2 (proj2
               (fetch_casts_for_user_outcome Sample.py_str (JStr "bob")
                  Scenario.bob_online))))
               _ _ (JInt 7) _ _ _ _ eq_refl eq_refl eq_refl eq_refl eq_refl _
               eq_refl eq_refl) _).
  - discriminate.
  - vm_compute. reflexivity.
Defined.

(** ** The response-parsing step *)

Lemma star_through_last (s : string) :
  (fix star (s : string) : option string :=
     match s with
     | String a s' =>
         match star s' with
         | Some m => Some (String a m)
         | None => match_here [ReChar rbrace] s
         end
     | EmptyString => match_here [ReChar rbrace] s
     end) s = through_last rbrace s.
Proof.
  induction s as [|a s IH]; [reflexivity|].
  rewrite IH. simpl. destruct (through_last rbrace s); [reflexivity|].
  destruct (Ascii.eqb a rbrace); reflexivity.
Qed.

Lemma match_here_json_pattern (s : string) :
  match_here json_pattern s =
  match s with
  | String a s' =>
      if Ascii.eqb a lbrace then
        match through_last rbrace s' with
        | Some m => Some (String a m)
        | None => None
        end
      else None
  | EmptyString => None
  end.
Proof.
  destruct s as [|a s]; [reflexivity|].
  unfold json_pattern. cbn [match_here]. rewrite star_through_last. reflexivity.
Qed.

Lemma through_last_none (c : ascii) (s : string) :
  through_last c s = None <-> occurs c s = false.
Proof.
  induction s as [|a s IH]; simpl; [tauto|].
  destruct (through_last c s) eqn:E.
  - split; [discriminate|]. intros H. apply orb_false_elim in H as [_ H].
    apply IH in H. discriminate.
  - destruct (Ascii.eqb a c); simpl; [split; discriminate|]. tauto.
Qed.

Lemma after_first_occurs (c d : ascii) (s rest : string) :
  after_first c s = Some rest -> occurs d rest = true -> occurs d s = true.
Proof.
  induction s as [|a s IH]; simpl; [discriminate|].
  destruct (Ascii.eqb a c).
  - intros [= ->] ->. apply orb_true_r.
  - intros H1 H2. rewrite (IH H1 H2). apply orb_true_r.
Qed.

Lemma first_to_last_none (s : string) :
  occurs rbrace s = false -> first_to_last_brace s = None.
Proof.
  intros Hs. unfold first_to_last_brace.
  destruct (after_first lbrace s) as [rest|] eqn:E; [|reflexivity].
  destruct (through_last rbrace rest) as [m|] eqn:E'; [|reflexivity].
  assert (occurs rbrace rest = true) as Hrest.
  { destruct (occurs rbrace rest) eqn:O; [reflexivity|].
    apply through_last_none in O. congruence. }
  rewrite (after_first_occurs _ _ _ _ E Hrest) in Hs. discriminate.
Qed.

(** The regular expression finds the text from the first opening brace
    to the last closing brace. *)
Lemma re_search_first_to_last (s : string) :
  re_search json_pattern s = first_to_last_brace s.
Proof.
  induction s as [|a s IH].
  - reflexivity.
  - cbn [re_search]. rewrite match_here_json_pattern.
    unfold first_to_last_brace. cbn [after_first].
    destruct (Ascii.eqb a lbrace) eqn:Ea.
    + apply Ascii.eqb_eq in Ea. subst a.
      destruct (through_last rbrace s) as [m|] eqn:E; [reflexivity|].
      rewrite IH. apply first_to_last_none. apply through_last_none. exact E.
    + rewrite IH. reflexivity.
Qed.

Lemma is_space_not_brace (a : ascii) :
  is_space a = true -> Ascii.eqb a lbrace = false /\ Ascii.eqb a rbrace = false.
Proof.
  intros H. split; apply Ascii.eqb_neq; intros ->; vm_compute in H; discriminate.
Qed.

Lemma first_to_last_lstrip (s : string) :
  first_to_last_brace (lstrip s) = first_to_last_brace s.
Proof.
  induction s as [|a s IH]; [reflexivity|].
  simpl. destruct (is_space a) eqn:Ea; [|reflexivity].
  rewrite IH. unfold first_to_last_brace. cbn [after_first].
  destruct (is_space_not_brace a Ea) as [-> _]. reflexivity.
Qed.

Lemma rstrip_cons (a : ascii) (s : string) :
  is_space a = false -> rstrip (String a s) = String a (rstrip s).
Proof.
  intros Ha. simpl. rewrite Ha. destruct (rstrip s); reflexivity.
Qed.

Lemma through_last_rstrip (s : string) :
  through_last rbrace (rstrip s) = through_last rbrace s.
Proof.
  induction s as [|a s IH]; [reflexivity|].
  cbn [rstrip through_last]. rewrite <- IH.
  destruct (rstrip s) as [|b r] eqn:E.
  - simpl. destruct (is_space a) eqn:Ea; simpl.
    + destruct (is_space_not_brace a Ea) as [_ ->]. reflexivity.
    + reflexivity.
  - reflexivity.
Qed.

Lemma after_first_rstrip (s : string) :
  after_first lbrace (rstrip s) = option_map rstrip (after_first lbrace s).
Proof.
  induction s as [|a s IH]; [reflexivity|].
  cbn [after_first]. destruct (Ascii.eqb a lbrace) eqn:Ea.
  - rewrite rstrip_cons.
    + simpl. rewrite Ea. reflexivity.
    + destruct (is_space a) eqn:Es; [|reflexivity].
      destruct (is_space_not_brace a Es). congruence.
  - rewrite <- IH. cbn [rstrip]. destruct (rstrip s) as [|b r] eqn:E.
    + destruct (is_space a); simpl; [reflexivity|]. rewrite Ea. reflexivity.
    + cbn [after_first]. rewrite Ea. reflexivity.
Qed.

Lemma first_to_last_strip (s : string) :
  first_to_last_brace (strip s) = first_to_last_brace s.
Proof.
  unfold strip. rewrite <- (first_to_last_lstrip s).
  unfold first_to_last_brace. rewrite after_first_rstrip.
  destruct (after_first lbrace (lstrip s)) as [rest|]; [|reflexivity].
  simpl. rewrite through_last_rstrip. reflexivity.
Qed.

Lemma after_first_app (c : ascii) (pre rest : string) :
  occurs c pre = false -> after_first c (pre +:+ String c rest) = Some rest.
Proof.
  induction pre as [|a pre IH]; simpl.
  - intros _. rewrite Ascii.eqb_refl. reflexivity.
  - intros H. apply orb_false_elim in H as [-> H]. auto.
Qed.

Lemma through_last_app (c : ascii) (mid post : string) :
  occurs c post = false ->
  through_last c (mid +:+ String c post) = Some (mid +:+ String c EmptyString).
Proof.
  intros Hpost. induction mid as [|a mid IH]; simpl.
  - apply through_last_none in Hpost. rewrite Hpost, Ascii.eqb_refl. reflexivity.
  - rewrite IH. reflexivity.
Qed.

Lemma first_to_last_embedded (pre mid post : string) :
  occurs lbrace pre = false -> occurs rbrace post = false ->
  first_to_last_brace (pre +:+ String lbrace (mid +:+ String rbrace post)) =
  Some (String lbrace (mid +:+ String rbrace EmptyString)).
Proof.
  intros Hpre Hpost. unfold first_to_last_brace.
  rewrite after_first_app by assumption.
  rewrite through_last_app by assumption. reflexivity.
Qed.

Lemma parse_response_first_to_last_lemma (json_loads : string -> result json) :
  (forall text,
      re_search json_pattern (strip text) = first_to_last_brace text)
  /\ (forall text,
        parse_response json_loads (Some text) =
        match first_to_last_brace text with
        | Some json_match => json_loads json_match
        | None => Raise (ValueError "No JSON found in response")
        end).
Proof.
  assert (Hsearch : forall text,
             re_search json_pattern (strip text) = first_to_last_brace text).
  { intros text. rewrite re_search_first_to_last. apply first_to_last_strip. }
  split; [exact Hsearch|].
  intros text. unfold parse_response, py_strip. rewrite Hsearch. reflexivity.
Qed.

(** C2.  The response-parsing step decodes the text that runs from the
    first opening brace to the last closing brace of the whole stripped
    response, line breaks included, and raises when there is no such
    text.  For a response made of prose without an opening brace, one
    object in braces, and prose without a closing brace, what is decoded
    is that object. *)
Theorem parse_response_first_to_last (json_loads : string -> result json) :
  (forall text,
      re_search json_pattern (strip text) = first_to_last_brace text)
  /\ (forall text,
        parse_response json_loads (Some text) =
        match first_to_last_brace text with
        | Some json_match => json_loads json_match
        | None => Raise (ValueError "No JSON found in response")
        end)
  /\ (forall pre mid post,
        occurs lbrace pre = false -> occurs rbrace post = false ->
        let object := String lbrace (mid +:+ String rbrace EmptyString) in
        parse_response json_loads
          (Some (pre +:+ String lbrace (mid +:+ String rbrace post))) =
        json_loads object).
Proof.
  destruct (parse_response_first_to_last_lemma json_loads) as [Hsearch Hparse].
  split; [exact Hsearch|]. split; [exact Hparse|].
  intros pre mid post Hpre Hpost object. rewrite Hparse.
  rewrite first_to_last_embedded by assumption. reflexivity.
Qed.

Lemma parse_response_first_to_last_witness :
  parse_response Sample.json_loads (Some Scenario.builder_response) =
  Ok (JDict Scenario.builder_classification).
Proof.
  exact (eq_trans
           (proj2 (proj2 (parse_response_first_to_last Sample.json_loads))
              Scenario.prose_before Scenario.builder_fields Scenario.prose_after
              eq_refl eq_refl)
           eq_refl).
Defined.

(** ** The biography *)



(** ** Dictionaries *)

Lemma dict_lookup_set_eq (k : string) (v : json) (d : dict) :
  dict_lookup k (dict_set k v d) = Some v.
Proof.
  induction d as [|[k' v'] d IH]; simpl.
  - rewrite String.eqb_refl. reflexivity.
  - destruct (String.eqb k k') eqn:E; simpl; rewrite E; [reflexivity|exact IH].
Qed.

Lemma dict_lookup_set_ne (k k' : string) (v : json) (d : dict) :
  k <> k' -> dict_lookup k (dict_set k' v d) = dict_lookup k d.
Proof.
  intros Hne. induction d as [|[k0 v0] d IH]; simpl.
  - apply String.eqb_neq in Hne. rewrite Hne. reflexivity.
  - destruct (String.eqb k' k0) eqn:E; simpl.
    + apply String.eqb_eq in E. subst k0.
      apply String.eqb_neq in Hne. rewrite Hne. reflexivity.
    + destruct (String.eqb k k0); [reflexivity|exact IH].
Qed.

Lemma dict_lookup_set (k k' : string) (v : json) (d : dict) :
  dict_lookup k (dict_set k' v d) =
  if String.eqb k k' then Some v else dict_lookup k d.
Proof.
  destruct (String.eqb k k') eqn:E.
  - apply String.eqb_eq in E. subst k'. apply dict_lookup_set_eq.
  - apply String.eqb_neq in E. apply dict_lookup_set_ne. exact E.
Qed.

Lemma dict_lookup_not_key (k : string) (d : dict) :
  k ∉ keys d -> dict_lookup k d = None.
Proof.
  induction d as [|[k' v'] d IH]; simpl; [reflexivity|].
  intros [Hne Hn]%not_elem_of_cons. destruct (String.eqb k k') eqn:E.
  - apply String.eqb_eq in E. congruence.
  - apply IH, Hn.
Qed.

(** Spreading a dict whose keys are distinct: its entries win over the
    entries already there. *)
Lemma dict_lookup_update (k : string) (items d : dict) :
  distinct_keys items ->
  dict_lookup k (dict_update d items) =
  match dict_lookup k items with
  | Some v => Some v
  | None => dict_lookup k d
  end.
Proof.
  revert d. induction items as [|[k' v'] items IH]; intros d Hnd; [reflexivity|].
  unfold distinct_keys in *. simpl in Hnd. apply NoDup_cons in Hnd as [Hnotin Hnd].
  unfold dict_update in *. simpl. rewrite (IH _ Hnd).
  destruct (String.eqb k k') eqn:E.
  - apply String.eqb_eq in E. subst k'.
    rewrite (dict_lookup_not_key _ _ Hnotin). apply dict_lookup_set_eq.
  - rewrite dict_lookup_set, E. reflexivity.
Qed.

Lemma has_key_set (k k' : string) (v : json) (d : dict) :
  has_key k (dict_set k' v d) = String.eqb k k' || has_key k d.
Proof.
  unfold has_key. rewrite dict_lookup_set. destruct (String.eqb k k'); reflexivity.
Qed.

Lemma has_key_update (k : string) (items d : dict) :
  has_key k (dict_update d items) = has_key k items || has_key k d.
Proof.
  revert d. induction items as [|[k' v'] items IH]; intros d; [reflexivity|].
  unfold dict_update in *. simpl. rewrite IH, has_key_set.
  unfold has_key at 3. simpl.
  destruct (String.eqb k k'); simpl.
  - apply orb_true_r.
  - reflexivity.
Qed.

Lemma has_key_fold (k : string) (es : list entry) (acc : dict) :
  has_key k (fold_left display_step es acc) = existsb (entry_has k) es || has_key k acc.
Proof.
  revert acc. induction es as [|e es IH]; intros acc; [reflexivity|].
  simpl. rewrite IH. destruct e as [k' v|m]; simpl.
  - rewrite has_key_set. destruct (String.eqb k k'), (existsb (entry_has k) es);
      reflexivity.
  - rewrite has_key_update. destruct (has_key k m), (existsb (entry_has k) es);
      reflexivity.
Qed.

Lemma has_key_display (k : string) (es : list entry) :
  has_key k (dict_display es) = existsb (entry_has k) es.
Proof.
  unfold dict_display. change (fun acc e => _) with display_step.
  rewrite has_key_fold. apply orb_false_r.
Qed.

Lemma dict_lookup_fold (k : string) (es : list entry) (acc : dict) :
  Forall spreads_distinct es ->
  dict_lookup k (fold_left display_step es acc) =
  match display_value k es with
  | Some v => Some v
  | None => dict_lookup k acc
  end.
Proof.
  revert acc. induction es as [|e es IH]; intros acc Hd; [reflexivity|].
  apply Forall_cons_1 in Hd as [He Hd]. simpl. rewrite (IH _ Hd).
  destruct (display_value k es); [reflexivity|].
  destruct e as [k' v|m]; simpl.
  - rewrite dict_lookup_set. destruct (String.eqb k k'); reflexivity.
  - apply dict_lookup_update. exact He.
Qed.

Lemma dict_lookup_display (k : string) (es : list entry) :
  Forall spreads_distinct es ->
  dict_lookup k (dict_display es) = display_value k es.
Proof.
  intros Hd. unfold dict_display. change (fun acc e => _) with display_step.
  rewrite dict_lookup_fold by exact Hd. destruct (display_value k es); reflexivity.
Qed.

Lemma keys_set (k : string) (v : json) (d : dict) :
  keys (dict_set k v d) = if has_key k d then keys d else keys d ++ [k].
Proof.
  unfold has_key. induction d as [|[k' v'] d IH]; simpl; [reflexivity|].
  destruct (String.eqb k k') eqn:E; simpl; [reflexivity|].
  rewrite IH. destruct (dict_lookup k d); reflexivity.
Qed.

Lemma has_key_elem_of (k : string) (d : dict) : has_key k d = true <-> k ∈ keys d.
Proof.
  unfold has_key. induction d as [|[k' v'] d IH]; simpl.
  - split; [discriminate|]. intros H. inversion H.
  - rewrite elem_of_cons. destruct (String.eqb k k') eqn:E.
    + apply String.eqb_eq in E. subst k'. tauto.
    + apply String.eqb_neq in E. rewrite IH. tauto.
Qed.

Lemma distinct_keys_set (k : string) (v : json) (d : dict) :
  distinct_keys d -> distinct_keys (dict_set k v d).
Proof.
  unfold distinct_keys. intros Hd. rewrite keys_set.
  destruct (has_key k d) eqn:E; [exact Hd|].
  apply NoDup_app. split; [exact Hd|]. split.
  - intros x Hx ->%list_elem_of_singleton. apply has_key_elem_of in Hx. congruence.
  - apply NoDup_singleton.
Qed.

Lemma distinct_keys_fold (es : list entry) (acc : dict) :
  distinct_keys acc -> distinct_keys (fold_left display_step es acc).
Proof.
  revert acc. induction es as [|e es IH]; intros acc Hacc; [exact Hacc|].
  simpl. apply IH. destruct e as [k v|m]; simpl.
  - apply distinct_keys_set, Hacc.
  - unfold dict_update. revert acc Hacc. clear.
    induction m as [|[k v] m IH]; intros acc Hacc; [exact Hacc|].
    simpl. apply IH, distinct_keys_set, Hacc.
Qed.

(** A dict display has each key once. *)
Lemma distinct_keys_display (es : list entry) : distinct_keys (dict_display es).
Proof.
  unfold dict_display. change (fun acc e => _) with display_step.
  apply distinct_keys_fold. constructor.
Qed.

(** ** The classification call *)

Section ClassifyRun.

Variable py_str : json -> string.
Variable json_loads : string -> result json.
Variables (user : dict) (bio : json) (cast_texts : list json) (prompt : string).

Lemma batch_round_run (attempt : Z) (w : World) :
  batch_round json_loads (JDict user) bio (JList cast_texts) prompt attempt w =
  match decoded json_loads (next_answer w) with
  | Ok fields =>
      (Ok (Return (JDict (success_record user bio cast_texts fields (now w) []))),
       asked prompt w)
  | Raise e =>
      if attempt =? RETRY_ATTEMPTS - 1 then (Raise e, asked prompt w)
      else (Ok Continue, after_sleep (RETRY_DELAY * 2 ^ attempt) (asked prompt w))
  end.
Proof.
  destruct w as [hp hl gp gl sl fs nw].
  unfold batch_round, try_except, bind, generate_content, lift, utcnow_isoformat,
    asyncio_sleep, raise, ret, next_answer, decoded, asked, after_sleep.
  cbn [gen_pending http_pending http_log gen_log slept files now].
  destruct gp as [|[e|text] rest]; cbn [tl].
  - destruct (attempt =? RETRY_ATTEMPTS - 1); reflexivity.
  - destruct (attempt =? RETRY_ATTEMPTS - 1); reflexivity.
  - destruct (parse_response json_loads text) as [classification|e].
    + destruct classification; cbn [py_mapping py_get py_len];
        try reflexivity;
        destruct (attempt =? RETRY_ATTEMPTS - 1); reflexivity.
    + destruct (attempt =? RETRY_ATTEMPTS - 1); reflexivity.
Qed.

Lemma batch_loop_run (w : World) :
  batch_loop json_loads (JDict user) bio (JList cast_texts) prompt w =
  classify_outcome json_loads user bio cast_texts prompt [] w.
Proof.
  unfold batch_loop, classify_outcome. rewrite range_attempts.
  unfold try_except at 1. cbn [for_each].
  rewrite batch_round_run.
  destruct (decoded json_loads (next_answer w)) as [f1|e1]; [reflexivity|].
  change (0 =? RETRY_ATTEMPTS - 1) with false. cbv iota.
  rewrite batch_round_run.
  destruct (decoded json_loads (next_answer _)) as [f2|e2]; [reflexivity|].
  change (1 =? RETRY_ATTEMPTS - 1) with false. cbv iota.
  rewrite batch_round_run.
  destruct (decoded json_loads (next_answer _)) as [f3|e3]; [reflexivity|].
  change (2 =? RETRY_ATTEMPTS - 1) with true. cbv iota.
  reflexivity.
Qed.

Variable creator : dict.

Lemma reclassify_round_run (attempt : Z) (w : World) :
  reclassify_round json_loads (JDict user) bio (JList cast_texts) (JDict creator)
                   prompt attempt w =
  match decoded json_loads (next_answer w) with
  | Ok fields =>
      (Ok (Return (JDict (success_record user bio cast_texts fields (now w)
                                         (financial_entries creator)))),
       asked prompt w)
  | Raise e =>
      if attempt =? RETRY_ATTEMPTS - 1 then (Raise e, asked prompt w)
      else (Ok Continue, after_sleep (RETRY_DELAY * 2 ^ attempt) (asked prompt w))
  end.
Proof.
  destruct w as [hp hl gp gl sl fs nw].
  unfold reclassify_round, try_except, bind, generate_content, lift, utcnow_isoformat,
    asyncio_sleep, raise, ret, next_answer, decoded, asked, after_sleep.
  cbn [gen_pending http_pending http_log gen_log slept files now].
  destruct gp as [|[e|text] rest]; cbn [tl].
  - destruct (attempt =? RETRY_ATTEMPTS - 1); reflexivity.
  - destruct (attempt =? RETRY_ATTEMPTS - 1); reflexivity.
  - destruct (parse_response json_loads text) as [classification|e].
    + destruct classification; cbn [py_mapping py_get py_len];
        try reflexivity;
        destruct (attempt =? RETRY_ATTEMPTS - 1); reflexivity.
    + destruct (attempt =? RETRY_ATTEMPTS - 1); reflexivity.
Qed.

Lemma reclassify_loop_run (w : World) :
  reclassify_loop json_loads (JDict user) bio (JList cast_texts) (JDict creator)
                  prompt w =
  classify_outcome json_loads user bio cast_texts prompt (financial_entries creator) w.
Proof.
  unfold reclassify_loop, classify_outcome. rewrite range_attempts.
  unfold try_except at 1. cbn [for_each].
  rewrite reclassify_round_run.
  destruct (decoded json_loads (next_answer w)) as [f1|e1]; [reflexivity|].
  change (0 =? RETRY_ATTEMPTS - 1) with false. cbv iota.
  rewrite reclassify_round_run.
  destruct (decoded json_loads (next_answer _)) as [f2|e2]; [reflexivity|].
  change (1 =? RETRY_ATTEMPTS - 1) with false. cbv iota.
  rewrite reclassify_round_run.
  destruct (decoded json_loads (next_answer _)) as [f3|e3]; [reflexivity|].
  change (2 =? RETRY_ATTEMPTS - 1) with true. cbv iota.
  reflexivity.
Qed.

End ClassifyRun.

Lemma build_prompt_defined (py_str : json -> string) (user : dict) (bio : json)
      (cast_texts : list json) :
  build_prompt py_str (JDict user) bio (JList cast_texts) =
  Ok (prompt_of py_str user bio cast_texts).
Proof. reflexivity. Qed.

Lemma batch_classify_run (py_str : json -> string) (json_loads : string -> result json)
      (cast_data : json) (user : dict) (cast_texts : list json) (bio : json) (w : World) :
  reads_as cast_data user cast_texts bio ->
  BatchClassify.classify_creator py_str json_loads cast_data w =
  classify_outcome json_loads user bio cast_texts
                   (prompt_of py_str user bio cast_texts) [] w.
Proof.
  intros (H1 & H2 & casts & H3 & H4).
  rewrite <- batch_loop_run.
  unfold BatchClassify.classify_creator.
  unfold bind at 1. unfold lift at 1. rewrite H1.
  unfold bind at 1. unfold lift at 1. rewrite H2.
  unfold bind at 1. unfold lift at 1. rewrite H3.
  unfold bind at 1. unfold lift at 1. rewrite H4.
  unfold bind at 1. unfold lift at 1. rewrite build_prompt_defined.
  reflexivity.
Qed.

Lemma reclassify_run (py_str : json -> string) (json_loads : string -> result json)
      (cast_data : json) (user : dict) (cast_texts : list json) (bio : json)
      (creator : dict) (w : World) :
  reads_as cast_data user cast_texts bio ->
  Reclassify.classify_creator py_str json_loads cast_data (JDict creator) w =
  classify_outcome json_loads user bio cast_texts
                   (prompt_of py_str user bio cast_texts) (financial_entries creator) w.
Proof.
  intros (H1 & H2 & casts & H3 & H4).
  rewrite <- reclassify_loop_run.
  unfold Reclassify.classify_creator.
  unfold bind at 1. unfold lift at 1. rewrite H1.
  unfold bind at 1. unfold lift at 1. rewrite H2.
  unfold bind at 1. unfold lift at 1. rewrite H3.
  unfold bind at 1. unfold lift at 1. rewrite H4.
  unfold bind at 1. unfold lift at 1. rewrite build_prompt_defined.
  reflexivity.
Qed.

Lemma process_classification_run (task : M json) (creator c : dict) (w w' : World) :
  task w = (Ok (JDict c), w') ->
  BatchClassify.process_classification task (JDict creator) w =
  (Ok (JDict (dict_display (Spread c :: financial_entries creator))), w').
Proof.
  intros Htask. unfold BatchClassify.process_classification.
  unfold bind at 1. rewrite Htask. reflexivity.
Qed.


(** ** The shape of the records *)

Lemma error_record_shape (user : dict) (message analyzed_at : string)
      (extra : list entry) :
  existsb (entry_has "primary_classification") extra = false ->
  is_error_record (error_record user message analyzed_at extra).
Proof.
  intros Hextra. unfold is_error_record, error_record.
  rewrite !has_key_display, !existsb_app, Hextra. split; reflexivity.
Qed.

Lemma success_record_shape (user : dict) (bio : json) (cast_texts : list json)
      (fields : dict) (analyzed_at : string) (extra : list entry) :
  existsb (entry_has "primary_classification") extra = false ->
  existsb (entry_has "error") extra = false ->
  is_success_record fields (success_record user bio cast_texts fields analyzed_at extra).
Proof.
  intros Hpc Herr. unfold is_success_record, success_record.
  split; [|split; [|split]].
  - unfold success_keys.
    repeat (apply Forall_cons; split;
            [rewrite has_key_display; simpl; rewrite ?orb_true_r; reflexivity|]).
    apply Forall_nil_2.
  - intros k Hk. rewrite has_key_display. apply existsb_exists.
    exists (Spread fields). split; [|exact Hk].
    apply in_or_app. left. simpl. tauto.
  - rewrite has_key_display, existsb_app, Hpc. simpl.
    destruct (has_key _ fields); reflexivity.
  - rewrite has_key_display, existsb_app, Herr. simpl.
    destruct (has_key _ fields); reflexivity.
Qed.






(** The snapshot the ingestion writes reads as a user object and a
    list of cast texts. *)
Lemma snapshot_reads_as (user casts : json) (cast_texts : list json)
      (fetched_at : string) (bio : json) :
  extract_bio casts = Ok bio ->
  exists fields,
    reads_as (snapshot user casts cast_texts fetched_at) fields cast_texts bio.
Proof.
  intros Hbio. eexists. split; [reflexivity|]. split; [reflexivity|].
  exists casts. split; [reflexivity|exact Hbio].
Qed.

Lemma alice_reads :
  reads_as Scenario.alice_cast_data Scenario.alice_user Scenario.alice_texts
           (JStr "Building onchain tools").
Proof.
  split; [reflexivity|]. split; [reflexivity|].
  exists (JList [Scenario.cast_with_bio]). split; reflexivity.
Defined.


(** ** The retry loop of the classification call *)

Lemma decoded_no_json (json_loads : string -> result json) (text : string) :
  first_to_last_brace text = None ->
  decoded json_loads (GenText (Some text)) =
  Raise (ValueError "No JSON found in response").
Proof.
  intros Hnone. unfold decoded.
  rewrite (proj2 (parse_response_first_to_last_lemma json_loads) text), Hnone.
  reflexivity.
Qed.

Lemma decoded_decode_error (json_loads : string -> result json)
      (text json_match : string) (e : exn) :
  first_to_last_brace text = Some json_match ->
  json_loads json_match = Raise e ->
  decoded json_loads (GenText (Some text)) = Raise e.
Proof.
  intros Hsome Hraise. unfold decoded.
  rewrite (proj2 (parse_response_first_to_last_lemma json_loads) text), Hsome, Hraise.
  reflexivity.
Qed.

(** C6.  A round of the retry loop fails when the call of the service
    raises, when the response has no text from an opening to a closing
    brace, or when decoding that text raises.  After a failed first
    round the call sleeps RETRY_DELAY * 2^0 seconds and asks again,
    after a failed second round RETRY_DELAY * 2^1 seconds, every time
    with the same prompt.  Only when the third round fails too is the
    result the error record: username, display_name, error (the message
    of the third exception) and analyzed_at, to which reclassify adds
    the four earnings fields.  A round that decodes ends the loop with
    the success record, which has a bio field, as no error record has. *)
Theorem classify_creator_retries (py_str : json -> string)
    (json_loads : string -> result json) (cast_data : json) (user : dict)
    (cast_texts : list json) (bio : json) (creator : dict) (w : World)
    (Hreads : reads_as cast_data user cast_texts bio) :
  let prompt := prompt_of py_str user bio cast_texts in
  let w1 := after_sleep (RETRY_DELAY * 2 ^ 0) (asked prompt w) in
  let w2 := after_sleep (RETRY_DELAY * 2 ^ 1) (asked prompt w1) in
  let w3 := asked prompt w2 in
  let batch := BatchClassify.classify_creator py_str json_loads cast_data w in
  let reclassify :=
    Reclassify.classify_creator py_str json_loads cast_data (JDict creator) w in
  ((forall e, decoded json_loads (GenError e) = Raise e)
   /\ (forall text,
         first_to_last_brace text = None ->
         decoded json_loads (GenText (Some text)) =
         Raise (ValueError "No JSON found in response"))
   /\ (forall text json_match e,
         first_to_last_brace text = Some json_match ->
         json_loads json_match = Raise e ->
         decoded json_loads (GenText (Some text)) = Raise e))
  /\ (forall e1 e2 e3,
        decoded json_loads (next_answer w) = Raise e1 ->
        decoded json_loads (next_answer w1) = Raise e2 ->
        decoded json_loads (next_answer w2) = Raise e3 ->
        batch = (Ok (JDict (error_record user (exn_str e3) (now w) [])), w3)
        /\ reclassify =
           (Ok (JDict (error_record user (exn_str e3) (now w)
                                    (financial_entries creator))), w3)
        /\ gen_log w3 = gen_log w ++ [prompt; prompt; prompt]
        /\ slept w3 = slept w ++ [RETRY_DELAY * 2 ^ 0; RETRY_DELAY * 2 ^ 1])
  /\ (forall fields,
        decoded json_loads (next_answer w) = Ok fields ->
        batch = (Ok (JDict (success_record user bio cast_texts fields (now w) [])),
                 asked prompt w)
        /\ reclassify =
           (Ok (JDict (success_record user bio cast_texts fields (now w)
                                      (financial_entries creator))), asked prompt w)
        /\ gen_log (asked prompt w) = gen_log w ++ [prompt]
        /\ slept (asked prompt w) = slept w)
  /\ (forall e1 fields,
        decoded json_loads (next_answer w) = Raise e1 ->
        decoded json_loads (next_answer w1) = Ok fields ->
        batch = (Ok (JDict (success_record user bio cast_texts fields (now w) [])),
                 asked prompt w1)
        /\ reclassify =
           (Ok (JDict (success_record user bio cast_texts fields (now w)
                                      (financial_entries creator))), asked prompt w1)
        /\ gen_log (asked prompt w1) = gen_log w ++ [prompt; prompt]
        /\ slept (asked prompt w1) = slept w ++ [RETRY_DELAY * 2 ^ 0])
  /\ (forall e1 e2 fields,
        decoded json_loads (next_answer w) = Raise e1 ->
        decoded json_loads (next_answer w1) = Raise e2 ->
        decoded json_loads (next_answer w2) = Ok fields ->
        batch = (Ok (JDict (success_record user bio cast_texts fields (now w) [])), w3)
        /\ reclassify =
           (Ok (JDict (success_record user bio cast_texts fields (now w)
                                      (financial_entries creator))), w3))
  /\ (forall message analyzed_at,
        keys (error_record user message analyzed_at []) =
          ["username"; "display_name"; "error"; "analyzed_at"]%string
        /\ keys (error_record user message analyzed_at (financial_entries creator)) =
          ["username"; "display_name"; "error"; "analyzed_at"; "earnings_usd";
           "coin_address"; "market_cap"; "zora_handle"]%string)
  /\ (forall fields analyzed_at extra,
        has_key "bio" (success_record user bio cast_texts fields analyzed_at extra)
        = true).
Proof.
  intros prompt w1 w2 w3 batch reclassify.
  assert (Hbatch : batch = classify_outcome json_loads user bio cast_texts prompt [] w)
    by (apply batch_classify_run, Hreads).
  assert (Hre : reclassify = classify_outcome json_loads user bio cast_texts prompt
                               (financial_entries creator) w)
    by (apply reclassify_run, Hreads).
  rewrite Hbatch, Hre. unfold classify_outcome. fold w1. fold w2. fold w3.
  split; [|split; [|split; [|split; [|split; [|split]]]]].
  - split; [reflexivity|]. split.
    + apply decoded_no_json.
    + apply decoded_decode_error.
  - intros e1 e2 e3 -> -> ->. repeat split.
    + unfold w3, w2, w1, asked, after_sleep. simpl. rewrite <- !app_assoc. reflexivity.
    + unfold w3, w2, w1, asked, after_sleep. simpl. rewrite <- !app_assoc. reflexivity.
  - intros fields ->. repeat split.
  - intros e1 fields -> ->. repeat split.
    unfold w1, asked, after_sleep. simpl. rewrite <- !app_assoc. reflexivity.
  - intros e1 e2 fields -> -> ->. repeat split.
  - intros message analyzed_at. split; reflexivity.
  - intros fields analyzed_at extra. unfold success_record.
    rewrite has_key_display. reflexivity.
Qed.

Lemma classify_creator_retries_witness :
  BatchClassify.classify_creator Sample.py_str Sample.json_loads
    Scenario.alice_cast_data Scenario.three_bad_answers =
  (Ok (JDict [("username", JStr "alice"); ("display_name", JStr "Alice");
              ("error", JStr "'NoneType' object has no attribute 'strip'");
              ("analyzed_at", JStr "2025-10-01T12:00:00")]),
   snd (BatchClassify.classify_creator Sample.py_str Sample.json_loads
          Scenario.alice_cast_data Scenario.three_bad_answers))
  /\ slept (snd (BatchClassify.classify_creator Sample.py_str Sample.json_loads
                   Scenario.alice_cast_data Scenario.three_bad_answers)) = [2; 4].
Proof.
  pose proof (proj1 (proj2 (classify_creator_retries Sample.py_str Sample.json_loads
                       Scenario.alice_cast_data Scenario.alice_user Scenario.alice_texts
                       (JStr "Building onchain tools") Scenario.alice_row
                       Scenario.three_bad_answers alice_reads))
                _ _ _ eq_refl eq_refl eq_refl) as (Hbatch & _ & _ & Hslept).
  split.
  - rewrite Hbatch. reflexivity.
  - rewrite Hbatch. exact Hslept.
Defined.

(** ** The merge with the earnings data *)

Lemma dict_lookup_update_untouched (k : string) (m acc : dict) :
  has_key k m = false -> dict_lookup k (dict_update acc m) = dict_lookup k acc.
Proof.
  revert acc. induction m as [|[k' v'] m IH]; intros acc Hk; [reflexivity|].
  unfold has_key in Hk. simpl in Hk. unfold dict_update in *. simpl.
  destruct (String.eqb k k') eqn:E; [discriminate|].
  rewrite IH by exact Hk. rewrite dict_lookup_set, E. reflexivity.
Qed.

Lemma dict_lookup_fold_untouched (k : string) (es : list entry) (acc : dict) :
  existsb (entry_has k) es = false ->
  dict_lookup k (fold_left display_step es acc) = dict_lookup k acc.
Proof.
  revert acc. induction es as [|e es IH]; intros acc Hk; [reflexivity|].
  simpl in Hk. apply orb_false_elim in Hk as [He Hes]. simpl.
  rewrite IH by exact Hes. destruct e as [k' v|m]; simpl in *.
  - rewrite dict_lookup_set, He. reflexivity.
  - apply dict_lookup_update_untouched, He.
Qed.

(** The value a dict display gives to the key of an item that no later
    entry defines again. *)
Lemma dict_lookup_display_item (k : string) (v : json) (es es' : list entry) :
  existsb (entry_has k) es' = false ->
  dict_lookup k (dict_display (es ++ Item k v :: es')) = Some v.
Proof.
  intros Hk. unfold dict_display. change (fun acc e => _) with display_step.
  rewrite fold_left_app. simpl. rewrite dict_lookup_fold_untouched by exact Hk.
  apply dict_lookup_set_eq.
Qed.

(** The value a dict display gives to a key of a spread dict that no
    later entry defines again. *)
Lemma dict_lookup_display_spread (k : string) (v : json) (m : dict)
      (es es' : list entry) :
  existsb (entry_has k) es' = false ->
  distinct_keys m ->
  dict_lookup k m = Some v ->
  dict_lookup k (dict_display (es ++ Spread m :: es')) = Some v.
Proof.
  intros Hk Hm Hv. unfold dict_display. change (fun acc e => _) with display_step.
  rewrite fold_left_app. simpl. rewrite dict_lookup_fold_untouched by exact Hk.
  rewrite dict_lookup_update by exact Hm. rewrite Hv. reflexivity.
Qed.


Lemma success_record_field (k : string) (v : json) (user : dict) (bio : json)
      (cast_texts : list json) (fields : dict) (analyzed_at : string)
      (extra : list entry) :
  String.eqb k "analyzed_at" = false ->
  existsb (entry_has k) extra = false ->
  distinct_keys fields ->
  dict_lookup k fields = Some v ->
  dict_lookup k (success_record user bio cast_texts fields analyzed_at extra) = Some v.
Proof.
  intros Hat Hextra Hd Hv. unfold success_record.
  apply (dict_lookup_display_spread k v fields [_; _; _; _; _] (_ :: extra));
    [|exact Hd|exact Hv].
  simpl. rewrite Hat, Hextra. reflexivity.
Qed.




(** ** The collection of the results *)










(** ** The creators that reach the classification stage *)








(** * Further properties *)

(** ** The fetcher *)

Lemma for_each_steps {A} (R : World -> World -> Prop) (xs : list Z)
      (body : Z -> M (flow A)) (after : M A) :
  (forall a b c, R a b -> R b c -> R a c) ->
  (forall x w, R w (snd (body x w))) ->
  (forall w, R w (snd (after w))) ->
  forall w, R w (snd (for_each xs body after w)).
Proof.
  intros Htrans Hbody Hafter. induction xs as [|x xs IH]; intros w; simpl.
  - apply Hafter.
  - specialize (Hbody x w). destruct (body x w) as [[[|a]|e] w1]; simpl in *.
    + eapply Htrans; [exact Hbody|apply IH].
    + exact Hbody.
    + exact Hbody.
Qed.

Lemma only_requests_trans (url : string) (a b c : World) :
  only_requests url a b -> only_requests url b c -> only_requests url a c.
Proof.
  intros (Hg1 & Hl1 & Hf1 & Hn1 & (n1 & Hlog1 & Hp1) & (d1 & Hs1))
         (Hg2 & Hl2 & Hf2 & Hn2 & (n2 & Hlog2 & Hp2) & (d2 & Hs2)).
  unfold only_requests. repeat split; try congruence.
  - exists (n1 + n2)%nat. split.
    + rewrite Hlog2, Hlog1, repeat_app, app_assoc. reflexivity.
    + rewrite Hp2, Hp1, drop_drop. reflexivity.
  - exists (d1 ++ d2). rewrite Hs2, Hs1, app_assoc. reflexivity.
Qed.

Lemma fetch_round_only_requests (url : string) (max_retries attempt : Z) (w : World) :
  only_requests url w (snd (fetch_round url max_retries attempt w)).
Proof.
  destruct w as [hp hl gp gl sl fs nw].
  assert (Hone : forall (ds : list Z),
             only_requests url (mkWorld hp hl gp gl sl fs nw)
                           (mkWorld (tl hp) (hl ++ [url]) gp gl (sl ++ ds) fs nw)).
  { intros ds. unfold only_requests. simpl. repeat split.
    - exists 1%nat. split; [reflexivity|]. destruct hp; reflexivity.
    - exists ds. reflexivity. }
  unfold fetch_round, try_except, bind, session_get, response_json, lift,
    asyncio_sleep, ret; simpl.
  destruct hp as [|[e|[st [data|e]]] hp]; simpl;
    repeat (match goal with |- context [if ?b then _ else _] => destruct b end; simpl);
    first [apply (Hone [_]) | rewrite <- (app_nil_r sl) at 2; apply (Hone [])].
Qed.

Lemma fetch_with_retry_frame (url : string) (max_retries : Z) (w : World) :
  only_requests url w (snd (BatchClassify.fetch_with_retry url max_retries w)).
Proof.
  rewrite fetch_with_retry_rounds.
  apply (for_each_steps (only_requests url)).
  - apply only_requests_trans.
  - intros x w0. apply fetch_round_only_requests.
  - intros w0. unfold only_requests, ret. simpl. repeat split.
    + exists 0%nat. simpl. rewrite app_nil_r. split; reflexivity.
    + exists []. rewrite app_nil_r. reflexivity.
Qed.

Lemma fetch_with_retry_files_kept (url : string) (max_retries : Z) (w : World) :
  files (snd (BatchClassify.fetch_with_retry url max_retries w)) = files w.
Proof. apply (fetch_with_retry_frame url max_retries w). Qed.

(** X4.  Whatever the answers, a call of the fetcher only asks its own
    URL, some number of times, taking that many answers from the
    network, and sleeps; it leaves the generative service, the files
    and the clock as they were. *)
Theorem fetch_with_retry_only_requests (url : string) (max_retries : Z) (w : World) :
  only_requests url w (snd (BatchClassify.fetch_with_retry url max_retries w)).
Proof. apply fetch_with_retry_frame. Qed.

Lemma range_length (n : Z) : List.length (range n) = Z.to_nat n.
Proof. unfold range. rewrite length_map, length_seq. reflexivity. Qed.

(** X1.  The fetcher issues at most [max_retries] requests; with an
    attempt count of zero or less it issues none, does not sleep, and
    returns None. *)
Theorem fetch_with_retry_attempt_budget (url : string) (max_retries : Z) (w : World) :
  requests_at_most (Z.to_nat max_retries)
                   (BatchClassify.fetch_with_retry url max_retries)
  /\ (max_retries <= 0 ->
      BatchClassify.fetch_with_retry url max_retries w = (Ok JNull, w)).
Proof.
  split.
  - rewrite fetch_with_retry_rounds, <- range_length.
    apply for_each_requests.
    + intros x. apply fetch_round_requests.
    + intros w0. simpl. lia.
  - intros Hle. rewrite fetch_with_retry_rounds. unfold range.
    replace (Z.to_nat max_retries) with 0%nat by lia. reflexivity.
Qed.

Lemma fetch_with_retry_attempt_budget_witness :
  BatchClassify.fetch_with_retry "u" 0 Scenario.two_rate_limits =
  (Ok JNull, Scenario.two_rate_limits).
Proof.
  apply (proj2 (fetch_with_retry_attempt_budget "u" 0 Scenario.two_rate_limits)). lia.
Defined.

(** X2.  Three 429 answers in a row: the fetcher sleeps after each of
    them, the third included, for RETRY_DELAY * 2^0, 2^1 and 2^2
    seconds, and then returns None. *)
Theorem fetch_with_retry_three_429 (url : string) (w : World)
    (o1 o2 o3 : http_outcome) (rest : list http_outcome)
    (Hpending : http_pending w = o1 :: o2 :: o3 :: rest)
    (H1 : is_429 o1 = true) (H2 : is_429 o2 = true) (H3 : is_429 o3 = true) :
  BatchClassify.fetch_with_retry url RETRY_ATTEMPTS w =
    (Ok JNull,
     mkWorld rest (http_log w ++ [url; url; url]) (gen_pending w) (gen_log w)
             (slept w ++ [RETRY_DELAY * 2 ^ 0; RETRY_DELAY * 2 ^ 1; RETRY_DELAY * 2 ^ 2])
             (files w) (now w)).
Proof.
  destruct o1 as [e1|[s1 b1]]; [discriminate|].
  destruct o2 as [e2|[s2 b2]]; [discriminate|].
  destruct o3 as [e3|[s3 b3]]; [discriminate|].
  simpl in H1, H2, H3. apply Z.eqb_eq in H1, H2, H3. subst s1 s2 s3.
  destruct w as [hp hl gp gl sl fs nw]. simpl in Hpending. subst hp.
  run_fetch. rewrite <- !app_assoc. reflexivity.
Qed.

Lemma fetch_with_retry_three_429_witness :
  BatchClassify.fetch_with_retry "u" RETRY_ATTEMPTS Cases.three_rate_limits =
    (Ok JNull, mkWorld [] ["u"; "u"; "u"] [] [] [2; 4; 8] ∅ "2025-10-01T12:00:00").
Proof.
  exact (fetch_with_retry_three_429 "u" Cases.three_rate_limits
           Scenario.rate_limited Scenario.rate_limited Scenario.rate_limited []
           eq_refl eq_refl eq_refl eq_refl).
Defined.

Lemma fetch_round_return (url : string) (max_retries attempt : Z) (w w1 : World)
      (v : json) :
  fetch_round url max_retries attempt w = (Ok (Return v), w1) ->
  v <> JNull ->
  exists r rest,
    http_pending w = HttpResponse r :: rest /\ status r = 200 /\ body r = Ok v.
Proof.
  destruct w as [hp hl gp gl sl fs nw].
  unfold fetch_round, try_except, bind, session_get, response_json, lift,
    asyncio_sleep, ret; simpl.
  destruct hp as [|[e|[st [data|e]]] hp]; simpl;
    repeat (match goal with
            | |- context [if ?b then _ else _] => destruct b eqn:?
            end; simpl);
    intros [= <- <-] Hv; try congruence.
  eexists (mkResponse st (Ok _)), hp. repeat split.
  apply Z.eqb_eq. assumption.
Qed.

Lemma fetch_round_pending (url : string) (max_retries attempt : Z) (w : World) :
  http_pending (snd (fetch_round url max_retries attempt w)) = tl (http_pending w).
Proof.
  destruct (fetch_round_only_requests url max_retries attempt w)
    as (_ & _ & _ & _ & (n & Hlog & Hp) & _).
  assert (n = 1%nat) as ->.
  { apply (f_equal List.length) in Hlog. rewrite length_app, repeat_length in Hlog.
    destruct w as [hp hl gp gl sl fs nw].
    revert Hlog.
    unfold fetch_round, try_except, bind, session_get, response_json, lift,
      asyncio_sleep, ret; simpl.
    destruct hp as [|[e|[st [data|e]]] hp]; simpl;
      repeat (match goal with |- context [if ?b then _ else _] => destruct b end; simpl);
      rewrite length_app; simpl; lia. }
  rewrite Hp. destruct (http_pending w); reflexivity.
Qed.

(** X3.  The fetcher returns data only from a 200 answer: a result
    other than None is the JSON body of an answer with status 200 that
    the network had pending. *)
Theorem fetch_with_retry_data_from_200 (url : string) (max_retries : Z)
    (w w' : World) (v : json)
    (Hrun : BatchClassify.fetch_with_retry url max_retries w = (Ok v, w'))
    (Hdata : v <> JNull) :
  exists r, HttpResponse r ∈ http_pending w /\ status r = 200 /\ body r = Ok v.
Proof.
  rewrite fetch_with_retry_rounds in Hrun. revert w Hrun.
  induction (range max_retries) as [|x xs IH]; intros w Hrun; simpl in Hrun.
  - injection Hrun as <- _. congruence.
  - pose proof (fetch_round_pending url max_retries x w) as Hp.
    destruct (fetch_round url max_retries x w) as [[[|a]|e] w1] eqn:Hround;
      simpl in Hp.
    + destruct (IH w1 Hrun) as (r & Hin & Hr). exists r. split; [|exact Hr].
      rewrite Hp in Hin. destruct (http_pending w); [inversion Hin|].
      right. exact Hin.
    + injection Hrun as -> ->.
      destruct (fetch_round_return _ _ _ _ _ _ Hround Hdata) as (r & rest & -> & Hr).
      exists r. split; [left|exact Hr].
    + discriminate.
Qed.

Lemma fetch_with_retry_data_from_200_witness :
  exists r, HttpResponse r ∈ http_pending Scenario.two_rate_limits
            /\ status r = 200 /\ body r = Ok Scenario.bob_profile.
Proof.
  refine (fetch_with_retry_data_from_200 "u" RETRY_ATTEMPTS Scenario.two_rate_limits
            _ Scenario.bob_profile eq_refl _).
  discriminate.
Defined.

(** ** The two lookups and the ingestion of a user *)

Lemma get_user_by_username_world (py_str : json -> string) (username : json)
      (w : World) :
  snd (BatchClassify.get_user_by_username py_str username w) =
  snd (BatchClassify.fetch_with_retry
         ("https://api.neynar.com/v2/farcaster/user/by_username?username="
          +:+ py_str username) RETRY_ATTEMPTS w).
Proof.
  unfold BatchClassify.get_user_by_username, bind.
  destruct (BatchClassify.fetch_with_retry _ _ w) as [[data|e] w1]; [|reflexivity].
  destruct (truthy data); reflexivity.
Qed.

Lemma get_popular_casts_world (py_str : json -> string) (fid : json) (limit : Z)
      (w : World) :
  snd (BatchClassify.get_popular_casts py_str fid limit w) =
  snd (BatchClassify.fetch_with_retry
         ("https://api.neynar.com/v2/farcaster/feed/user/popular?fid="
          +:+ py_str fid +:+ "&limit=" +:+ py_str (JInt limit)) RETRY_ATTEMPTS w).
Proof.
  unfold BatchClassify.get_popular_casts, bind.
  destruct (BatchClassify.fetch_with_retry _ _ w) as [[data|e] w1]; [|reflexivity].
  destruct (truthy data); reflexivity.
Qed.

Lemma fetch_with_retry_first_200 (url : string) (w : World) (data : json)
      (rest : list http_outcome) :
  http_pending w = HttpResponse (mkResponse 200 (Ok data)) :: rest ->
  BatchClassify.fetch_with_retry url RETRY_ATTEMPTS w =
  (Ok data, mkWorld rest (http_log w ++ [url]) (gen_pending w) (gen_log w)
                    (slept w) (files w) (now w)).
Proof.
  intros Hp. destruct w as [hp hl gp gl sl fs nw]. simpl in Hp. subst hp.
  unfold BatchClassify.fetch_with_retry; rewrite range_attempts.
  unfold for_each, try_except, bind, session_get, response_json, lift, ret.
  reflexivity.
Qed.

(** X5.  What the two lookups make of a 200 answer whose body is not
    what they expect.  An object without the key: the profile lookup
    gives None, the casts lookup gives the empty list.  The empty
    object: both give None.  A truthy body that is not an object (a
    list, a text, a number): both raise AttributeError. *)
Theorem lookups_on_unexpected_body (py_str : json -> string) (username fid : json)
    (limit : Z) (w : World) (data : json) (rest : list http_outcome)
    (Hpending : http_pending w = HttpResponse (mkResponse 200 (Ok data)) :: rest) :
  let user_url := ("https://api.neynar.com/v2/farcaster/user/by_username?username="
                   +:+ py_str username)%string in
  let casts_url := ("https://api.neynar.com/v2/farcaster/feed/user/popular?fid="
                    +:+ py_str fid +:+ "&limit=" +:+ py_str (JInt limit))%string in
  let after url := mkWorld rest (http_log w ++ [url]) (gen_pending w) (gen_log w)
                           (slept w) (files w) (now w) in
  let user := BatchClassify.get_user_by_username py_str username w in
  let casts := BatchClassify.get_popular_casts py_str fid limit w in
  (forall d, data = JDict d -> d <> [] ->
             (dict_lookup "user" d = None -> user = (Ok JNull, after user_url))
             /\ (dict_lookup "casts" d = None -> casts = (Ok (JList []), after casts_url)))
  /\ (data = JDict [] ->
      user = (Ok JNull, after user_url) /\ casts = (Ok JNull, after casts_url))
  /\ (truthy data = true -> is_dict data = false ->
      user = (Raise (AttributeError (type_name data)), after user_url)
      /\ casts = (Raise (AttributeError (type_name data)), after casts_url)).
Proof.
  intros user_url casts_url after user casts.
  assert (Huser : user = (if truthy data then py_get data "user" JNull else Ok JNull,
                          after user_url)).
  { subst user. unfold BatchClassify.get_user_by_username, bind.
    rewrite (fetch_with_retry_first_200 _ w data rest Hpending).
    destruct (truthy data); reflexivity. }
  assert (Hcasts : casts = (if truthy data then py_get data "casts" (JList [])
                            else Ok JNull, after casts_url)).
  { subst casts. unfold BatchClassify.get_popular_casts, bind.
    rewrite (fetch_with_retry_first_200 _ w data rest Hpending).
    destruct (truthy data); reflexivity. }
  rewrite Huser, Hcasts. split; [|split].
  - intros d -> Hd. destruct d as [|kv d]; [congruence|]. simpl.
    split; intros ->; reflexivity.
  - intros ->. split; reflexivity.
  - intros Htruthy Hdict. rewrite Htruthy.
    destruct data; try discriminate; split; reflexivity.
Qed.

Lemma lookups_on_unexpected_body_witness :
  fst (BatchClassify.get_popular_casts Sample.py_str (JInt 7) 10
         (Scenario.with_http [Scenario.ok_body Cases.other_body])) = Ok (JList [])
  /\ fst (BatchClassify.get_user_by_username Sample.py_str (JStr "bob")
            (Scenario.with_http [Scenario.ok_body Cases.list_body]))
     = Raise (AttributeError "'list'").
Proof.
  split.
  - exact (f_equal fst
             (proj2 (proj1 (lookups_on_unexpected_body Sample.py_str (JStr "bob")
                (JInt 7) 10 (Scenario.with_http [Scenario.ok_body Cases.other_body])
                Cases.other_body [] eq_refl) _ eq_refl ltac:(discriminate)) eq_refl)).
  - exact (f_equal fst
             (proj1 (proj2 (proj2 (lookups_on_unexpected_body Sample.py_str (JStr "bob")
                (JInt 7) 10 (Scenario.with_http [Scenario.ok_body Cases.list_body])
                Cases.list_body [] eq_refl)) eq_refl eq_refl))).
Defined.

Lemma get_user_by_username_files (py_str : json -> string) (username : json)
      (w : World) :
  files (snd (BatchClassify.get_user_by_username py_str username w)) = files w.
Proof.
  rewrite get_user_by_username_world.
  apply (fetch_with_retry_files_kept _ RETRY_ATTEMPTS w).
Qed.

Lemma get_popular_casts_files (py_str : json -> string) (fid : json) (limit : Z)
      (w : World) :
  files (snd (BatchClassify.get_popular_casts py_str fid limit w)) = files w.
Proof.
  rewrite get_popular_casts_world.
  apply (fetch_with_retry_files_kept _ RETRY_ATTEMPTS w).
Qed.

(** The ways a run of the ingestion can end. *)
Lemma fetch_casts_for_user_cases (py_str : json -> string) (username : json)
      (w w' : World) (res : result (bool * string)) :
  let path := cast_file py_str username in
  BatchClassify.fetch_casts_for_user py_str username w = (res, w') ->
  (is_Some (files w !! path) /\ res = Ok (true, "cached"%string) /\ w' = w)
  \/ (files w !! path = None
      /\ ((files w' = files w
           /\ (res = Ok (false, "user_fetch_failed"%string)
               \/ res = Ok (false, "casts_fetch_failed"%string)
               \/ exists e, res = Raise e))
          \/ (res = Ok (true, "fetched"%string)
              /\ exists data, files w' = <[path := data]> (files w)))).
Proof.
  intros path Hrun.
  unfold BatchClassify.fetch_casts_for_user, bind, file_exists in Hrun.
  fold path in Hrun.
  destruct (files w !! path) as [cached|] eqn:Hfile.
  - rewrite bool_decide_eq_true_2 in Hrun by eauto.
    injection Hrun as <- <-. left. eauto.
  - right. split; [reflexivity|].
    rewrite bool_decide_eq_false_2 in Hrun by apply is_Some_None.
    pose proof (get_user_by_username_files py_str username w) as Hw1.
    destruct (BatchClassify.get_user_by_username py_str username w)
      as [[user|e] w1]; simpl in Hw1;
      [|injection Hrun as <- <-; left; eauto].
    destruct (truthy user); cbn [negb] in Hrun;
      [|injection Hrun as <- <-; left; eauto].
    unfold lift, utcnow_isoformat, write_json, ret in Hrun.
    destruct (py_getitem user "fid") as [fid|e];
      [|injection Hrun as <- <-; left; eauto].
    pose proof (get_popular_casts_files py_str fid 10 w1) as Hw2.
    destruct (BatchClassify.get_popular_casts py_str fid 10 w1)
      as [[casts|e] w2]; simpl in Hw2;
      [|injection Hrun as <- <-; left; split; [congruence|eauto]].
    destruct (is_none casts);
      [injection Hrun as <- <-; left; split; [congruence|eauto]|].
    repeat (match type of Hrun with
            | context [match ?x with Ok _ => _ | Raise _ => _ end] =>
                destruct x;
                [|injection Hrun as <- <-; left; split; [congruence|eauto]]
            end).
    injection Hrun as <- <-. right. split; [reflexivity|].
    eexists. simpl. rewrite Hw2, Hw1. reflexivity.
Qed.

(** X6.  The ingestion of a user never touches a file other than the
    user's cast file, and it writes that one only when it returns
    (True, fetched): a failed, a cached and a raising run leave the
    files as they were.  A fetched run creates the file, which was not
    there before. *)
Theorem fetch_casts_for_user_files (py_str : json -> string) (username : json)
    (w : World) :
  let path := cast_file py_str username in
  let run := BatchClassify.fetch_casts_for_user py_str username w in
  (forall other, other <> path -> files (snd run) !! other = files w !! other)
  /\ (fst run <> Ok (true, "fetched"%string) -> files (snd run) = files w)
  /\ (fst run = Ok (true, "fetched"%string) ->
      files w !! path = None /\ is_Some (files (snd run) !! path)).
Proof.
  intros path run. subst run.
  destruct (BatchClassify.fetch_casts_for_user py_str username w) as [res w'] eqn:Hrun.
  simpl.
  destruct (fetch_casts_for_user_cases py_str username w w' res Hrun)
    as [(Hsome & -> & ->)|[Hnone [[Hfiles Hres]|[-> [data Hfiles]]]]];
    fold path in Hnone || idtac.
  - split; [intros; reflexivity|]. split; [intros; reflexivity|discriminate].
  - rewrite Hfiles. split; [intros; reflexivity|]. split; [intros; reflexivity|].
    intros Hfetched. destruct Hres as [H|[H|[e H]]]; congruence.
  - rewrite Hfiles. split; [|split].
    + intros other Hother. apply lookup_insert_ne.
      intros Heq. apply Hother. symmetry. exact Heq.
    + intros Hne. exfalso. apply Hne. reflexivity.
    + intros _. split; [exact Hnone|]. fold path. rewrite lookup_insert_eq. eauto.
Qed.

Lemma fetch_casts_for_user_files_witness :
  files (snd (BatchClassify.fetch_casts_for_user Sample.py_str (JStr "bob")
                Scenario.unknown_user)) = ∅
  /\ is_Some (files (snd (BatchClassify.fetch_casts_for_user Sample.py_str (JStr "bob")
                            Scenario.bob_online)) !! "casts/bob-casts.json"%string).
Proof.
  split.
  - apply (proj1 (proj2 (fetch_casts_for_user_files Sample.py_str (JStr "bob")
                           Scenario.unknown_user))).
    discriminate.
  - apply (proj2 (proj2 (fetch_casts_for_user_files Sample.py_str (JStr "bob")
                           Scenario.bob_online))).
    vm_compute. reflexivity.
Defined.

(** X7.  After a run of the ingestion that succeeded (fetched or
    cached), a second run for the same user returns (True, cached),
    asks nothing of the network and leaves the world as it is. *)
Theorem fetch_casts_for_user_again (py_str : json -> string) (username : json)
    (w w' : World) (tag : string)
    (Hrun : BatchClassify.fetch_casts_for_user py_str username w = (Ok (true, tag), w')) :
  BatchClassify.fetch_casts_for_user py_str username w' = (Ok (true, "cached"%string), w').
Proof.
  assert (Hsome : is_Some (files w' !! cast_file py_str username)).
  { destruct (fetch_casts_for_user_cases py_str username w w' _ Hrun)
      as [(Hsome & _ & ->)|[Hnone [[Hfiles Hres]|[Hres [data Hfiles]]]]].
    - exact Hsome.
    - destruct Hres as [H|[H|[e H]]]; discriminate.
    - rewrite Hfiles, lookup_insert_eq. eauto. }
  unfold BatchClassify.fetch_casts_for_user, bind, file_exists.
  rewrite bool_decide_eq_true_2 by exact Hsome. reflexivity.
Qed.

Lemma fetch_casts_for_user_again_witness :
  let w' := snd (BatchClassify.fetch_casts_for_user Sample.py_str (JStr "bob")
                   Scenario.bob_online) in
  BatchClassify.fetch_casts_for_user Sample.py_str (JStr "bob") w'
  = (Ok (true, "cached"%string), w').
Proof.
  exact (fetch_casts_for_user_again Sample.py_str (JStr "bob") Scenario.bob_online
           _ "fetched" eq_refl).
Defined.

(** X8.  A user whose list of popular casts is empty is ingested all
    the same: the run returns (True, fetched) and writes a snapshot
    without cast texts.  The classification stage then has no task for
    a creator with that username. *)
Theorem fetched_without_casts (py_str : json -> string) (username : json)
    (w w1 w2 : World) (user fid : json)
    (Hnone : files w !! cast_file py_str username = None)
    (Huser : BatchClassify.get_user_by_username py_str username w = (Ok user, w1))
    (Htruthy : truthy user = true)
    (Hfid : py_getitem user "fid" = Ok fid)
    (Hcasts : BatchClassify.get_popular_casts py_str fid 10 w1 = (Ok (JList []), w2)) :
  exists w',
    BatchClassify.fetch_casts_for_user py_str username w = (Ok (true, "fetched"%string), w')
    /\ files w' !! cast_file py_str username
       = Some (snapshot user (JList []) [] (now w2))
    /\ forall creator,
        farcaster_username creator = Ok username ->
        classification_inputs py_str (files w') [creator] = Ok [].
Proof.
  exists (set_files (<[cast_file py_str username :=
                         snapshot user (JList []) [] (now w2)]> (files w2)) w2).
  split; [|split].
  - unfold BatchClassify.fetch_casts_for_user, bind, file_exists.
    rewrite bool_decide_eq_false_2 by (rewrite Hnone; apply is_Some_None).
    rewrite Huser, Htruthy. unfold lift. cbn [negb]. rewrite Hfid, Hcasts.
    cbn [is_none py_iter map_result].
    unfold utcnow_isoformat, write_json, ret.
    destruct user as [| | | | |d]; try discriminate. reflexivity.
  - simpl. apply lookup_insert_eq.
  - intros creator Hcreator. cbn [classification_inputs]. rewrite Hcreator.
    simpl files. rewrite lookup_insert_eq. reflexivity.
Qed.

Lemma fetched_without_casts_witness :
  exists w',
    BatchClassify.fetch_casts_for_user Sample.py_str (JStr "erin") Cases.erin_online
      = (Ok (true, "fetched"%string), w')
    /\ classification_inputs Sample.py_str (files w') [Scenario.row_of "erin" "1"]
       = Ok [].
Proof.
  destruct (fetched_without_casts Sample.py_str (JStr "erin") Cases.erin_online
              _ _ _ (JInt 9) eq_refl eq_refl eq_refl eq_refl eq_refl)
    as (w' & Hrun & _ & Hstage).
  exists w'. split; [exact Hrun|]. apply Hstage. reflexivity.
Defined.

(** ** The summary of the ingestion *)

Lemma ingest_result_cases (r : bool * string) :
  ingest_result r ->
  r = (true, "fetched"%string) \/ r = (true, "cached"%string)
  \/ r = (false, "user_fetch_failed"%string) \/ r = (false, "casts_fetch_failed"%string).
Proof.
  intros (py_str & username & w & w' & Hrun).
  destruct (fetch_casts_for_user_cases py_str username w w' _ Hrun)
    as [(_ & H & _)|[_ [[_ [H|[H|[e H]]]]|[H _]]]];
    try (injection H as ->); try discriminate; tauto.
Qed.

Lemma count_if_cons {A} (p : A -> bool) (x : A) (xs : list A) :
  count_if p (x :: xs) = (if p x then 1 else 0) + count_if p xs.
Proof.
  unfold count_if. simpl. destruct (p x); simpl List.length; lia.
Qed.

Lemma count_if_permutation {A} (p : A -> bool) (xs ys : list A) :
  xs ≡ₚ ys -> count_if p xs = count_if p ys.
Proof.
  induction 1 as [|x xs ys _ IH|x y xs|xs ys zs _ IH1 _ IH2].
  - reflexivity.
  - rewrite !count_if_cons, IH. reflexivity.
  - rewrite !count_if_cons. lia.
  - congruence.
Qed.

(** X9.  The three numbers of the summary of step 3 add up to the
    number of users: every result of the ingestion is counted once, as
    fetched, as cached or as an error.  The numbers do not depend on the
    order in which the results were collected. *)
Theorem fetch_summary_counts (results : list (bool * string)) :
  (Forall ingest_result results ->
   let '(fetched, cached, errors) := fetch_summary results in
   fetched + cached + errors = Z.of_nat (List.length results))
  /\ (forall collected, collected ≡ₚ results ->
                        fetch_summary collected = fetch_summary results).
Proof.
  split.
  - unfold fetch_summary. induction 1 as [|r results Hr _ IH].
    + reflexivity.
    + rewrite !count_if_cons. simpl List.length.
      destruct (ingest_result_cases r Hr) as [-> | [-> | [-> | ->]]]; simpl; lia.
  - intros collected Hperm. unfold fetch_summary.
    rewrite !(count_if_permutation _ _ _ Hperm). reflexivity.
Qed.

Lemma ingest_bob_online : ingest_result (true, "fetched"%string).
Proof.
  exists Sample.py_str, (JStr "bob"), Scenario.bob_online,
    (snd (BatchClassify.fetch_casts_for_user Sample.py_str (JStr "bob")
            Scenario.bob_online)).
  vm_compute. reflexivity.
Defined.

Lemma ingest_unknown_user : ingest_result (false, "user_fetch_failed"%string).
Proof.
  exists Sample.py_str, (JStr "bob"), Scenario.unknown_user,
    (snd (BatchClassify.fetch_casts_for_user Sample.py_str (JStr "bob")
            Scenario.unknown_user)).
  vm_compute. reflexivity.
Defined.

Lemma fetch_summary_counts_witness :
  fetch_summary [(true, "fetched"%string); (false, "user_fetch_failed"%string);
                 (true, "fetched"%string)] = (2, 0, 1)
  /\ 2 + 0 + 1 = 3.
Proof.
  split; [reflexivity|].
  apply (proj1 (fetch_summary_counts
                  [(true, "fetched"%string); (false, "user_fetch_failed"%string);
                   (true, "fetched"%string)])).
  repeat (constructor; [first [exact ingest_bob_online | exact ingest_unknown_user]|]).
  constructor.
Defined.

(** ** The Farcaster filter *)

Lemma has_farcaster_raises (c : json) :
  (exists e, has_farcaster c = Raise e) <-> is_none c = false /\ is_dict c = false.
Proof.
  unfold has_farcaster. destruct c as [| | | | |c]; simpl;
    try (split; [intros _; split; reflexivity|intros _; eauto]).
  - split; [intros [e H]; discriminate|intros [H _]; discriminate].
  - split; [|intros [_ H]; discriminate]. intros [e H]. exfalso.
    destruct (dict_lookup "socials" c) as [socials|]; [|discriminate].
    destruct socials as [| | | | |socials]; try discriminate. simpl in H.
    destruct (dict_lookup "farcaster" socials) as [farcaster|]; [|discriminate].
    destruct farcaster as [| | | | |farcaster]; discriminate.
Qed.


Lemma filter_result_raises {A} (f : A -> result bool) (xs : list A) :
  (exists e, filter_result f xs = Raise e) <->
  List.Exists (fun x => exists e, f x = Raise e) xs.
Proof.
  induction xs as [|x xs IH]; simpl.
  - split; [intros [e H]; discriminate|intros H; inversion H].
  - rewrite List.Exists_cons, <- IH. destruct (f x) as [keep|e].
    + destruct (filter_result f xs) as [rest|e'].
      * split; [intros [e H]; discriminate|].
        intros [[e H]|[e H]]; discriminate.
      * split; [intros _; right; eauto|intros _; eauto].
    + split; [intros _; left; eauto|intros _; eauto].
Qed.



(** X11.  The filter raises exactly when some row of the fee data is
    neither null nor an object (a text, a number, a list): such a row
    has no [get], and the AttributeError ends [main]. *)
Theorem creators_with_farcaster_raises (rows : list json) :
  (exists e, creators_with_farcaster (JList rows) = Raise e) <->
  List.Exists (fun c => is_none c = false /\ is_dict c = false) rows.
Proof.
  unfold creators_with_farcaster. simpl. rewrite filter_result_raises.
  split; intros H; eapply List.Exists_impl; try exact H;
    intros c Hc; apply has_farcaster_raises; exact Hc.
Qed.

Lemma creators_with_farcaster_raises_witness :
  exists e, creators_with_farcaster (JList [JNull; JStr "n/a"; JDict Scenario.alice_row])
            = Raise e.
Proof.
  apply (proj2 (creators_with_farcaster_raises
                  [JNull; JStr "n/a"; JDict Scenario.alice_row])).
  apply List.Exists_cons_tl, List.Exists_cons_hd. split; reflexivity.
Defined.

(** ** The classification call *)

Lemma only_asks_outcome (json_loads : string -> result json) (user : dict)
      (bio : json) (cast_texts : list json) (prompt : string) (extra : list entry)
      (w : World) :
  only_asks prompt w
            (snd (classify_outcome json_loads user bio cast_texts prompt extra w)).
Proof.
  assert (Hafter : forall (n : nat) (ds : list Z) (gp : list gen_outcome) hp hl gl sl fs nw,
             (1 <= n <= 3)%nat ->
             ds = take (n - 1) [RETRY_DELAY * 2 ^ 0; RETRY_DELAY * 2 ^ 1] ->
             only_asks prompt (mkWorld hp hl gp gl sl fs nw)
                       (mkWorld hp hl (drop n gp) (gl ++ repeat prompt n) (sl ++ ds)
                                fs nw)).
  { intros n ds gp hp hl gl sl fs nw Hn ->. unfold only_asks. simpl.
    do 4 (split; [reflexivity|]). exists n. repeat split; lia || reflexivity. }
  destruct w as [hp hl gp gl sl fs nw]. unfold classify_outcome.
  destruct (decoded json_loads (next_answer _)) as [f1|e1].
  { unfold asked. simpl. rewrite <- (app_nil_r sl) at 2.
    replace (tl gp) with (drop 1 gp) by (destruct gp; reflexivity).
    apply (Hafter 1%nat); [lia|reflexivity]. }
  destruct (decoded json_loads (next_answer _)) as [f2|e2].
  { unfold asked, after_sleep. simpl. rewrite <- app_assoc.
    replace (tl (tl gp)) with (drop 2 gp) by (destruct gp as [|? [|? ?]]; reflexivity).
    apply (Hafter 2%nat); [lia|reflexivity]. }
  assert (H3 : only_asks prompt (mkWorld hp hl gp gl sl fs nw)
                 (asked prompt (after_sleep (RETRY_DELAY * 2 ^ 1)
                    (asked prompt (after_sleep (RETRY_DELAY * 2 ^ 0)
                       (asked prompt (mkWorld hp hl gp gl sl fs nw))))))).
  { unfold asked, after_sleep. simpl. rewrite <- !app_assoc.
    replace (tl (tl (tl gp))) with (drop 3 gp)
      by (destruct gp as [|? [|? [|? ?]]]; reflexivity).
    apply (Hafter 3%nat); [lia|reflexivity]. }
  destruct (decoded json_loads (next_answer _)); exact H3.
Qed.

(** X13.  A classification call, in either script, asks the service at
    least once and at most three times, each time with the prompt built
    from the cast data, and sleeps only between the calls: not at all,
    RETRY_DELAY * 2^0, or that and then RETRY_DELAY * 2^1 seconds.  It
    makes no HTTP request and touches no file. *)
Theorem classify_creator_only_asks (py_str : json -> string)
    (json_loads : string -> result json) (cast_data : json) (user : dict)
    (cast_texts : list json) (bio : json) (creator : dict) (w : World)
    (Hreads : reads_as cast_data user cast_texts bio) :
  let prompt := prompt_of py_str user bio cast_texts in
  only_asks prompt w
            (snd (BatchClassify.classify_creator py_str json_loads cast_data w))
  /\ only_asks prompt w
       (snd (Reclassify.classify_creator py_str json_loads cast_data (JDict creator) w)).
Proof.
  intros prompt. split.
  - rewrite (batch_classify_run py_str json_loads cast_data user cast_texts bio w Hreads).
    apply only_asks_outcome.
  - rewrite (reclassify_run py_str json_loads cast_data user cast_texts bio creator w
               Hreads).
    apply only_asks_outcome.
Qed.

Lemma classify_creator_only_asks_witness :
  only_asks (prompt_of Sample.py_str Scenario.alice_user (JStr "Building onchain tools")
                       Scenario.alice_texts)
            Scenario.three_bad_answers
            (snd (BatchClassify.classify_creator Sample.py_str Sample.json_loads
                    Scenario.alice_cast_data Scenario.three_bad_answers)).
Proof.
  exact (proj1 (classify_creator_only_asks Sample.py_str Sample.json_loads
                  Scenario.alice_cast_data Scenario.alice_user Scenario.alice_texts
                  (JStr "Building onchain tools") Scenario.alice_row
                  Scenario.three_bad_answers alice_reads)).
Defined.

(** X14.  Cast data whose user is not an object (null, a text, a list)
    makes the classification call raise AttributeError while it builds
    the prompt, outside its try blocks: the exception leaves the call,
    the service is not asked and no record is returned. *)
Theorem classify_creator_user_not_object (py_str : json -> string)
    (json_loads : string -> result json) (cast_data user casts bio creator : json)
    (cast_texts : list json) (w : World)
    (Htexts : py_get cast_data "cast_texts" (JList []) = Ok (JList cast_texts))
    (Huser : py_get cast_data "user" (JDict []) = Ok user)
    (Hnot : is_dict user = false)
    (Hcasts : py_get cast_data "casts" (JList []) = Ok casts)
    (Hbio : extract_bio casts = Ok bio) :
  BatchClassify.classify_creator py_str json_loads cast_data w
    = (Raise (AttributeError (type_name user)), w)
  /\ Reclassify.classify_creator py_str json_loads cast_data creator w
     = (Raise (AttributeError (type_name user)), w).
Proof.
  assert (Hprompt : build_prompt py_str user bio (JList cast_texts)
                    = Raise (AttributeError (type_name user))).
  { unfold build_prompt. simpl py_iter. cbv iota.
    destruct user; try discriminate; reflexivity. }
  split.
  - unfold BatchClassify.classify_creator.
    unfold bind at 1. unfold lift at 1. rewrite Htexts.
    unfold bind at 1. unfold lift at 1. rewrite Huser.
    unfold bind at 1. unfold lift at 1. rewrite Hcasts.
    unfold bind at 1. unfold lift at 1. rewrite Hbio.
    unfold bind at 1. unfold lift at 1. rewrite Hprompt. reflexivity.
  - unfold Reclassify.classify_creator.
    unfold bind at 1. unfold lift at 1. rewrite Htexts.
    unfold bind at 1. unfold lift at 1. rewrite Huser.
    unfold bind at 1. unfold lift at 1. rewrite Hcasts.
    unfold bind at 1. unfold lift at 1. rewrite Hbio.
    unfold bind at 1. unfold lift at 1. rewrite Hprompt. reflexivity.
Qed.

Lemma classify_creator_user_not_object_witness :
  BatchClassify.classify_creator Sample.py_str Sample.json_loads
    Cases.null_user_cast_data Scenario.builder_answer
  = (Raise (AttributeError "'NoneType'"), Scenario.builder_answer).
Proof.
  exact (proj1 (classify_creator_user_not_object Sample.py_str Sample.json_loads
                  Cases.null_user_cast_data JNull (JList []) NO_BIO JNull
                  [JStr "gm"] Scenario.builder_answer
                  eq_refl eq_refl eq_refl eq_refl eq_refl)).
Defined.

Lemma dict_lookup_update_congr (k : string) (m acc1 acc2 : dict) :
  dict_lookup k acc1 = dict_lookup k acc2 ->
  dict_lookup k (dict_update acc1 m) = dict_lookup k (dict_update acc2 m).
Proof.
  revert acc1 acc2. induction m as [|[k' v'] m IH]; intros acc1 acc2 Hacc; [exact Hacc|].
  unfold dict_update in *. simpl. apply IH. rewrite !dict_lookup_set, Hacc. reflexivity.
Qed.

Lemma dict_lookup_fold_congr (k : string) (es : list entry) (acc1 acc2 : dict) :
  dict_lookup k acc1 = dict_lookup k acc2 ->
  dict_lookup k (fold_left display_step es acc1)
  = dict_lookup k (fold_left display_step es acc2).
Proof.
  revert acc1 acc2. induction es as [|e es IH]; intros acc1 acc2 Hacc; [exact Hacc|].
  simpl. apply IH. destruct e as [k' v|m]; simpl.
  - rewrite !dict_lookup_set, Hacc. reflexivity.
  - apply dict_lookup_update_congr, Hacc.
Qed.

Lemma success_record_analyzed_at (user : dict) (bio : json) (cast_texts : list json)
      (fields : dict) (analyzed_at : string) (extra : list entry) :
  existsb (entry_has "analyzed_at") extra = false ->
  dict_lookup "analyzed_at"
              (success_record user bio cast_texts fields analyzed_at extra)
  = Some (JStr analyzed_at).
Proof.
  intros Hextra. unfold success_record.
  apply (dict_lookup_display_item _ _ [_; _; _; _; _; _] extra). exact Hextra.
Qed.

Lemma display_spread_default (k : string) (es : list entry) (fields : dict)
      (es' : list entry) :
  dict_lookup k fields = None ->
  dict_lookup k (dict_display (es ++ Spread fields :: es'))
  = dict_lookup k (dict_display (es ++ Spread [] :: es')).
Proof.
  intros Hk. unfold dict_display. change (fun acc e => _) with display_step.
  rewrite !fold_left_app. cbn [fold_left]. apply dict_lookup_fold_congr.
  cbn [display_step]. apply dict_lookup_update_untouched.
  unfold has_key. rewrite Hk. reflexivity.
Qed.

Lemma success_record_default (k : string) (user : dict) (bio : json)
      (cast_texts : list json) (fields : dict) (analyzed_at : string)
      (extra : list entry) :
  dict_lookup k fields = None ->
  dict_lookup k (success_record user bio cast_texts fields analyzed_at extra)
  = dict_lookup k (success_record user bio cast_texts [] analyzed_at extra).
Proof.
  intros Hk. unfold success_record.
  apply (display_spread_default k [_; _; _; _; _] fields (_ :: extra)). exact Hk.
Qed.

(** X12.  In the success record the decoded fields come after the
    cached ones and before the timestamp: a field of the decoded object
    replaces the cached username, display_name, bio, follower_count or
    casts_analyzed of the same name, a field the decoded object lacks
    keeps its cached value, and analyzed_at is always the clock reading,
    whatever the decoded object says. *)
Theorem decoded_fields_override (py_str : json -> string)
    (json_loads : string -> result json) (cast_data : json) (user : dict)
    (cast_texts : list json) (bio : json) (w : World) (fields : dict)
    (Hreads : reads_as cast_data user cast_texts bio)
    (Hdecoded : decoded json_loads (next_answer w) = Ok fields)
    (Hdistinct : distinct_keys fields) :
  exists record w',
    BatchClassify.classify_creator py_str json_loads cast_data w
      = (Ok (JDict record), w')
    /\ dict_lookup "analyzed_at" record = Some (JStr (now w))
    /\ (forall k v, String.eqb k "analyzed_at" = false ->
                    dict_lookup k fields = Some v -> dict_lookup k record = Some v)
    /\ (forall k, dict_lookup k fields = None ->
                  dict_lookup k record
                  = dict_lookup k (success_record user bio cast_texts [] (now w) [])).
Proof.
  pose proof (batch_classify_run py_str json_loads cast_data user cast_texts bio w
                Hreads) as Hrun.
  unfold classify_outcome in Hrun. rewrite Hdecoded in Hrun.
  eexists _, _. split; [exact Hrun|]. split; [|split].
  - apply success_record_analyzed_at. reflexivity.
  - intros k v Hk Hv. apply success_record_field; [exact Hk|reflexivity|assumption..].
  - intros k Hk. apply success_record_default, Hk.
Qed.

Lemma overriding_fields_distinct : distinct_keys Cases.overriding_fields.
Proof.
  unfold distinct_keys. apply (bool_decide_unpack _). vm_compute. exact I.
Defined.

Lemma decoded_fields_override_witness :
  exists record w',
    BatchClassify.classify_creator Sample.py_str Sample.json_loads
      Scenario.alice_cast_data Cases.overriding_answer = (Ok (JDict record), w')
    /\ dict_lookup "analyzed_at" record = Some (JStr "2025-10-01T12:00:00")
    /\ dict_lookup "username" record = Some (JStr "mallory").
Proof.
  destruct (decoded_fields_override Sample.py_str Sample.json_loads
              Scenario.alice_cast_data Scenario.alice_user Scenario.alice_texts
              (JStr "Building onchain tools") Cases.overriding_answer
              Cases.overriding_fields alice_reads eq_refl overriding_fields_distinct)
    as (record & w' & Hrun & Hat & Hfields & _).
  exists record, w'. split; [exact Hrun|]. split; [exact Hat|].
  apply Hfields; reflexivity.
Defined.

(** ** The two scripts *)

Lemma dict_set_fresh (k : string) (v : json) (d : dict) :
  k ∉ keys d -> dict_set k v d = d ++ [(k, v)].
Proof.
  induction d as [|[k' v'] d IH]; simpl; [reflexivity|].
  intros [Hne Hd]%not_elem_of_cons.
  apply String.eqb_neq in Hne. rewrite Hne, (IH Hd). reflexivity.
Qed.

Lemma dict_update_append (acc items : dict) :
  NoDup (keys items) -> (forall k, k ∈ keys items -> k ∉ keys acc) ->
  dict_update acc items = acc ++ items.
Proof.
  revert acc. induction items as [|[k v] items IH]; intros acc Hnd Hfresh.
  - simpl. rewrite app_nil_r. reflexivity.
  - simpl in Hnd. apply NoDup_cons in Hnd as [Hk Hnd].
    unfold dict_update in *. simpl.
    rewrite dict_set_fresh by (apply Hfresh; simpl; left).
    rewrite IH; [rewrite <- app_assoc; reflexivity|exact Hnd|].
    intros k' Hk'. unfold keys. rewrite map_app. simpl.
    rewrite elem_of_app, list_elem_of_singleton. intros [Hin| ->].
    + apply (Hfresh k'); [simpl; right; exact Hk'|exact Hin].
    + apply Hk, Hk'.
Qed.

(** Spreading a dict display into an empty display gives it back. *)
Lemma dict_display_spread (es more : list entry) :
  dict_display (Spread (dict_display es) :: more) = dict_display (es ++ more).
Proof.
  unfold dict_display at 1 3. change (fun acc e => _) with display_step.
  rewrite fold_left_app. cbn [fold_left display_step]. f_equal.
  rewrite dict_update_append.
  - reflexivity.
  - apply distinct_keys_display.
  - intros k _ Hin. inversion Hin.
Qed.

Lemma scripts_agree (py_str : json -> string)
      (json_loads : string -> result json) (cast_data : json) (user : dict)
      (cast_texts : list json) (bio : json) (creator : dict) (w : World) :
  reads_as cast_data user cast_texts bio ->
  BatchClassify.process_classification
    (BatchClassify.classify_creator py_str json_loads cast_data) (JDict creator) w
  = Reclassify.classify_creator py_str json_loads cast_data (JDict creator) w.
Proof.
  intros Hreads.
  rewrite (reclassify_run py_str json_loads cast_data user cast_texts bio creator w
             Hreads).
  pose proof (batch_classify_run py_str json_loads cast_data user cast_texts bio w
                Hreads) as Hbatch.
  unfold classify_outcome in *.
  repeat (match goal with
          | |- context [match decoded json_loads ?x with _ => _ end] =>
              destruct (decoded json_loads x)
          end);
    rewrite (process_classification_run _ creator _ w _ Hbatch);
    unfold success_record, error_record; rewrite dict_display_spread; reflexivity.
Qed.

(** X15.  The two scripts build the same record.  The merge of the
    batch script applied to its classification call returns what the
    classification call of the reclassify script returns, success or
    error, with the same fields in the same order, and leaves the same
    world. *)
Theorem scripts_build_same_record (py_str : json -> string)
    (json_loads : string -> result json) (cast_data : json) (user : dict)
    (cast_texts : list json) (bio : json) (creator : dict) (w : World)
    (Hreads : reads_as cast_data user cast_texts bio) :
  BatchClassify.process_classification
    (BatchClassify.classify_creator py_str json_loads cast_data) (JDict creator) w
  = Reclassify.classify_creator py_str json_loads cast_data (JDict creator) w.
Proof. exact (scripts_agree _ _ _ _ _ _ _ _ Hreads). Qed.

Lemma scripts_build_same_record_witness :
  BatchClassify.process_classification
    (BatchClassify.classify_creator Sample.py_str Sample.json_loads
       Scenario.alice_cast_data) (JDict Scenario.alice_row) Scenario.builder_answer
  = Reclassify.classify_creator Sample.py_str Sample.json_loads
      Scenario.alice_cast_data (JDict Scenario.alice_row) Scenario.builder_answer.
Proof.
  exact (scripts_build_same_record Sample.py_str Sample.json_loads
           Scenario.alice_cast_data Scenario.alice_user Scenario.alice_texts
           (JStr "Building onchain tools") Scenario.alice_row Scenario.builder_answer
           alice_reads).
Defined.

(** ** The biography and the cast files, ill-typed *)

(** X21.  The defaults of the biography extraction cover missing keys
    only.  When the first raw item holds, under author, under profile or
    under bio, a value that is not an object (null, a text, a list), the
    extraction raises AttributeError, and so does the classification
    call of either script, before it asks the service. *)
Theorem extract_bio_not_object (first : dict) (rest : list json) :
  let casts := JList (JDict first :: rest) in
  (forall author,
      dict_lookup "author" first = Some author -> is_dict author = false ->
      extract_bio casts = Raise (AttributeError (type_name author)))
  /\ (forall author profile,
        dict_lookup "author" first = Some (JDict author) ->
        dict_lookup "profile" author = Some profile -> is_dict profile = false ->
        extract_bio casts = Raise (AttributeError (type_name profile)))
  /\ (forall author profile bio,
        dict_lookup "author" first = Some (JDict author) ->
        dict_lookup "profile" author = Some (JDict profile) ->
        dict_lookup "bio" profile = Some bio -> is_dict bio = false ->
        extract_bio casts = Raise (AttributeError (type_name bio)))
  /\ (forall py_str json_loads cast_data creator w e,
        (exists texts user, py_get cast_data "cast_texts" (JList []) = Ok texts
                            /\ py_get cast_data "user" (JDict []) = Ok user) ->
        py_get cast_data "casts" (JList []) = Ok casts ->
        extract_bio casts = Raise e ->
        BatchClassify.classify_creator py_str json_loads cast_data w = (Raise e, w)
        /\ Reclassify.classify_creator py_str json_loads cast_data creator w
           = (Raise e, w)).
Proof.
  intros casts. subst casts.
  assert (Hlen : forall l : list json, (0 <? Z.of_nat (List.length (JDict first :: l))) = true)
    by (intros l; apply Z.ltb_lt; simpl; lia).
  split; [|split; [|split]].
  - intros author Ha Hnot. unfold extract_bio. cbn [truthy py_len py_first].
    rewrite Hlen. cbn [py_get]. rewrite Ha.
    destruct author; try discriminate; reflexivity.
  - intros author profile Ha Hp Hnot. unfold extract_bio. cbn [truthy py_len py_first].
    rewrite Hlen. cbn [py_get]. rewrite Ha. cbn [py_get]. rewrite Hp.
    destruct profile; try discriminate; reflexivity.
  - intros author profile bio Ha Hp Hb Hnot. unfold extract_bio.
    cbn [truthy py_len py_first].
    rewrite Hlen. cbn [py_get]. rewrite Ha. cbn [py_get]. rewrite Hp.
    cbn [py_get]. rewrite Hb.
    destruct bio; try discriminate; reflexivity.
  - intros py_str json_loads cast_data creator w e (texts & user & Htexts & Huser)
           Hcasts Hbio.
    split.
    + unfold BatchClassify.classify_creator.
      unfold bind at 1. unfold lift at 1. rewrite Htexts.
      unfold bind at 1. unfold lift at 1. rewrite Huser.
      unfold bind at 1. unfold lift at 1. rewrite Hcasts.
      unfold bind at 1. unfold lift at 1. rewrite Hbio. reflexivity.
    + unfold Reclassify.classify_creator.
      unfold bind at 1. unfold lift at 1. rewrite Htexts.
      unfold bind at 1. unfold lift at 1. rewrite Huser.
      unfold bind at 1. unfold lift at 1. rewrite Hcasts.
      unfold bind at 1. unfold lift at 1. rewrite Hbio. reflexivity.
Qed.

Lemma extract_bio_not_object_witness :
  extract_bio (JList [JDict [("text", JStr "gm"); ("author", JNull)]])
  = Raise (AttributeError (type_name JNull)).
Proof.
  exact (proj1 (extract_bio_not_object [("text", JStr "gm"); ("author", JNull)] [])
               JNull eq_refl eq_refl).
Defined.

(** ** The collection stage *)

Lemma map_result_id_raises {A} (results : list (result A)) (e : exn) :
  Raise e ∈ results -> exists e', map_result id results = Raise e'.
Proof.
  induction results as [|r results IH]; intros Hin; [inversion Hin|].
  destruct r as [a|e0]; cbn [map_result]; unfold id at 1; [|eauto].
  apply elem_of_cons in Hin as [Heq|Hin]; [discriminate|].
  destruct (IH Hin) as [e' He']. rewrite He'. eauto.
Qed.

Lemma as_completed_elem {A} (order : list nat) (results : list A) (i : nat) (x : A) :
  i ∈ order -> results !! i = Some x -> x ∈ as_completed order results.
Proof.
  intros Hi Hx. unfold as_completed. apply list_elem_of_omap. eauto.
Qed.

(** X16.  One task that raises ends the collection stage: when a task
    among those that complete leaves its call with an exception (as
    with a cast file whose user is not an object), [main] raises at the
    await and writes no output file, whatever the other tasks returned. *)
Theorem main_classify_task_exception (py_str : json -> string)
    (json_loads : string -> result json) (fs : gmap string json)
    (creators : list json) (envs : nat -> World) (order : list nat)
    (tasks : list (json * json)) (i : nat)
    (Htasks : classification_inputs py_str fs creators = Ok tasks)
    (Hcompleted : i ∈ order) :
  (forall e, BatchClassify.run_tasks py_str json_loads envs tasks !! i = Some (Raise e) ->
             exists e', BatchClassify.main_classify py_str json_loads fs creators envs order
                        = Raise e')
  /\ (forall e, Reclassify.run_tasks py_str json_loads envs tasks !! i = Some (Raise e) ->
                exists e', Reclassify.main_classify py_str json_loads fs creators envs order
                           = Raise e').
Proof.
  split; intros e Hi.
  - unfold BatchClassify.main_classify. rewrite Htasks.
    destruct (map_result_id_raises
                (as_completed order (BatchClassify.run_tasks py_str json_loads envs tasks))
                e (as_completed_elem _ _ _ _ Hcompleted Hi)) as [e' ->].
    eauto.
  - unfold Reclassify.main_classify. rewrite Htasks.
    destruct (map_result_id_raises
                (as_completed order (Reclassify.run_tasks py_str json_loads envs tasks))
                e (as_completed_elem _ _ _ _ Hcompleted Hi)) as [e' ->].
    eauto.
Qed.

Lemma main_classify_task_exception_witness :
  exists e',
    BatchClassify.main_classify Sample.py_str Sample.json_loads
      (<["casts/bob-casts.json"%string := Cases.null_user_cast_data]> Scenario.cast_dir)
      Scenario.creators Scenario.service [1; 0]%nat = Raise e'.
Proof.
  refine (proj1 (main_classify_task_exception Sample.py_str Sample.json_loads
                   (<["casts/bob-casts.json"%string := Cases.null_user_cast_data]>
                      Scenario.cast_dir)
                   Scenario.creators Scenario.service [1; 0]%nat
                   [(Scenario.alice_cast_data, JDict Scenario.alice_row);
                    (Cases.null_user_cast_data, Scenario.row_of "bob" "20.50")]
                   1%nat eq_refl _)
            (AttributeError "'NoneType'") eq_refl).
  apply list_elem_of_here.
Defined.




(** ** The extraction of the JSON object *)

Lemma after_first_split (c : ascii) (s rest : string) :
  after_first c s = Some rest ->
  exists pre, s = pre +:+ String c rest /\ occurs c pre = false.
Proof.
  revert rest. induction s as [|a s IH]; intros rest; simpl; [discriminate|].
  destruct (Ascii.eqb a c) eqn:Ea.
  - intros [= ->]. apply Ascii.eqb_eq in Ea. subst a.
    exists EmptyString. split; reflexivity.
  - intros Hrest. destruct (IH rest Hrest) as (pre & -> & Hpre).
    exists (String a pre). split; [reflexivity|]. simpl. rewrite Ea. exact Hpre.
Qed.

Lemma through_last_split (c : ascii) (s m : string) :
  through_last c s = Some m ->
  exists mid post,
    s = mid +:+ String c post /\ m = mid +:+ String c EmptyString
    /\ occurs c post = false.
Proof.
  revert m. induction s as [|a s IH]; intros m; simpl; [discriminate|].
  destruct (through_last c s) as [m'|] eqn:E.
  - intros [= <-]. destruct (IH m' eq_refl) as (mid & post & -> & -> & Hpost).
    exists (String a mid), post. repeat split. exact Hpost.
  - destruct (Ascii.eqb a c) eqn:Ea; [|discriminate].
    intros [= <-]. apply Ascii.eqb_eq in Ea. subst a.
    exists EmptyString, s. repeat split. apply through_last_none, E.
Qed.

(** X18.  What the search for the JSON object finds in a response is
    one piece of the response that starts with an opening brace and
    ends with a closing brace, with no opening brace before it and no
    closing brace after it.  It finds nothing, and the round fails with
    No JSON found in response, exactly when the response has no opening
    brace, or no closing brace after the first opening one. *)
Theorem json_match_shape (json_loads : string -> result json) (text : string) :
  (forall json_match,
      re_search json_pattern (strip text) = Some json_match ->
      exists pre mid post,
        text = pre +:+ String lbrace (mid +:+ String rbrace post)
        /\ json_match = String lbrace (mid +:+ String rbrace EmptyString)
        /\ occurs lbrace pre = false /\ occurs rbrace post = false)
  /\ (re_search json_pattern (strip text) = None <->
      match after_first lbrace text with
      | None => True
      | Some rest => occurs rbrace rest = false
      end)
  /\ (re_search json_pattern (strip text) = None ->
      parse_response json_loads (Some text)
      = Raise (ValueError "No JSON found in response")).
Proof.
  rewrite (proj1 (parse_response_first_to_last_lemma json_loads) text).
  split; [|split].
  - intros json_match Hmatch. unfold first_to_last_brace in Hmatch.
    destruct (after_first lbrace text) as [rest|] eqn:Hfirst; [|discriminate].
    destruct (through_last rbrace rest) as [m|] eqn:Hlast; [|discriminate].
    injection Hmatch as <-.
    destruct (after_first_split _ _ _ Hfirst) as (pre & -> & Hpre).
    destruct (through_last_split _ _ _ Hlast) as (mid & post & -> & -> & Hpost).
    exists pre, mid, post. repeat split; assumption.
  - unfold first_to_last_brace.
    destruct (after_first lbrace text) as [rest|]; [|tauto].
    rewrite <- through_last_none.
    destruct (through_last rbrace rest); split; congruence.
  - intros Hnone.
    rewrite (proj2 (parse_response_first_to_last_lemma json_loads) text), Hnone.
    reflexivity.
Qed.

Lemma json_match_shape_witness :
  exists pre mid post,
    Cases.two_objects = pre +:+ String lbrace (mid +:+ String rbrace post)
    /\ String lbrace (quoted "a" +:+ ":1} and then {" +:+ quoted "b" +:+ ":2}")
       = String lbrace (mid +:+ String rbrace EmptyString)
    /\ occurs lbrace pre = false /\ occurs rbrace post = false.
Proof.
  exact (proj1 (json_match_shape Sample.json_loads Cases.two_objects) _ eq_refl).
Defined.

(** ** Cast files that are not objects *)




(** ** The summaries *)

Lemma sum_counts_bump (cat : json) (counts : list (json * Z)) :
  sum_counts (bump cat counts) = sum_counts counts + 1.
Proof.
  induction counts as [|[k n] counts IH]; simpl; [reflexivity|].
  destruct (key_eqb cat k); simpl; lia.
Qed.

Lemma positive_bump (cat : json) (counts : list (json * Z)) :
  Forall (fun kv => 1 <= snd kv) counts ->
  Forall (fun kv => 1 <= snd kv) (bump cat counts).
Proof.
  induction 1 as [|[k n] counts Hk Hrest IH]; simpl.
  - constructor; [simpl; lia|constructor].
  - simpl in Hk. destruct (key_eqb cat k); constructor; simpl; try lia; assumption.
Qed.

Lemma count_categories_sum (records : list dict) (acc counts : list (json * Z)) :
  count_categories records acc = Ok counts ->
  Forall (fun kv => 1 <= snd kv) acc ->
  sum_counts counts = sum_counts acc + Z.of_nat (List.length records)
  /\ Forall (fun kv => 1 <= snd kv) counts.
Proof.
  revert acc. induction records as [|c records IH]; intros acc; simpl.
  - intros [= <-] Hacc. split; [lia|exact Hacc].
  - destruct (dict_lookup "primary_classification" c) as [cat|]; [|discriminate].
    destruct (hashable cat); [|discriminate].
    intros Hrun Hacc.
    destruct (IH _ Hrun (positive_bump cat acc Hacc)) as [Hsum Hpos].
    rewrite sum_counts_bump in Hsum. split; [lia|exact Hpos].
Qed.

Lemma insert_by_count_permutation (x : json * Z) (items : list (json * Z)) :
  insert_by_count x items ≡ₚ x :: items.
Proof.
  induction items as [|y items IH]; simpl; [reflexivity|].
  destruct (snd y <=? snd x); [reflexivity|].
  rewrite IH. apply Permutation_swap.
Qed.

Lemma sorted_by_count_permutation (items : list (json * Z)) :
  sorted_by_count items ≡ₚ items.
Proof.
  induction items as [|x items IH]; simpl; [reflexivity|].
  rewrite insert_by_count_permutation, IH. reflexivity.
Qed.

Lemma insert_by_count_descending (x : json * Z) (items : list (json * Z)) :
  descending items -> descending (insert_by_count x items).
Proof.
  induction items as [|y items IH]; simpl.
  - intros _. split; constructor.
  - intros [Hy Hitems]. destruct (snd y <=? snd x) eqn:E; simpl.
    + apply Z.leb_le in E. split; [|split; assumption].
      constructor; [exact E|]. eapply Forall_impl; [exact Hy|].
      intros z Hz. simpl in Hz. lia.
    + apply Z.leb_gt in E. split; [|apply IH, Hitems].
      rewrite insert_by_count_permutation. constructor; [lia|exact Hy].
Qed.

Lemma sorted_by_count_descending (items : list (json * Z)) :
  descending (sorted_by_count items).
Proof.
  induction items as [|x items IH]; simpl; [exact I|].
  apply insert_by_count_descending, IH.
Qed.

Lemma sum_counts_permutation (xs ys : list (json * Z)) :
  xs ≡ₚ ys -> sum_counts xs = sum_counts ys.
Proof.
  induction 1; simpl; lia.
Qed.

Lemma count_categories_successful (classifications : list dict)
      (acc : list (json * Z)) :
  Forall (fun c => exists cat, dict_lookup "primary_classification" c = Some cat
                               /\ hashable cat = true)
         (successful classifications) ->
  exists counts, count_categories (successful classifications) acc = Ok counts.
Proof.
  generalize (successful classifications). intros records Hrecords. revert acc.
  induction Hrecords as [|c records (cat & Hcat & Hhash) _ IH]; intros acc; simpl.
  - eauto.
  - rewrite Hcat, Hhash. apply IH.
Qed.

(** X19.  The classification breakdown counts every record that has a
    truthy primary_classification exactly once: the counts add up to
    the number of those records, every category listed has a count of at
    least one, and the lines are in the order of their counts, largest
    first.  It is printed whenever the categories of those records are
    hashable (texts, numbers, booleans), and raises TypeError when one
    is a list or an object. *)
Theorem classification_breakdown_counts (classifications : list dict) :
  (forall lines,
      classification_breakdown classifications = Ok lines ->
      sum_counts lines = Z.of_nat (List.length (successful classifications))
      /\ Forall (fun kv => 1 <= snd kv) lines
      /\ descending lines)
  /\ (Forall (fun c => hashable (get c "primary_classification") = true)
             classifications ->
      exists lines, classification_breakdown classifications = Ok lines)
  /\ (forall c rest,
        successful classifications = c :: rest ->
        hashable (get c "primary_classification") = false ->
        classification_breakdown classifications
        = Raise (TypeError ("unhashable type: "
                            +:+ type_name (get c "primary_classification")))).
Proof.
  unfold classification_breakdown. split; [|split].
  - intros lines Hlines.
    destruct (count_categories (successful classifications) []) as [counts|e] eqn:Hcounts;
      [|discriminate].
    injection Hlines as <-.
    destruct (count_categories_sum _ _ _ Hcounts (Forall_nil_2 _)) as [Hsum Hpos].
    split; [|split].
    + rewrite (sum_counts_permutation _ _ (sorted_by_count_permutation counts)).
      rewrite Hsum. reflexivity.
    + rewrite sorted_by_count_permutation. exact Hpos.
    + apply sorted_by_count_descending.
  - intros Hall.
    destruct (count_categories_successful classifications []) as [counts ->]; [|eauto].
    unfold successful. apply List.Forall_forall. intros c Hc.
    apply List.filter_In in Hc as [Hin Htruthy].
    rewrite List.Forall_forall in Hall. specialize (Hall c Hin).
    unfold record_has, get in *.
    destruct (dict_lookup "primary_classification" c) as [cat|]; [eauto|discriminate].
  - intros c rest Hsucc Hunhashable. rewrite Hsucc. simpl.
    assert (Htruthy : record_has "primary_classification" c = true).
    { assert (Hin : List.In c (successful classifications))
        by (rewrite Hsucc; left; reflexivity).
      apply List.filter_In in Hin. apply Hin. }
    unfold record_has, get in *.
    destruct (dict_lookup "primary_classification" c) as [cat|]; [|discriminate].
    rewrite Hunhashable. reflexivity.
Qed.

Lemma classification_breakdown_counts_witness :
  classification_breakdown
    [[("primary_classification", JStr "Builder")];
     [("error", JStr "boom")];
     [("primary_classification", JStr "Creative")];
     [("primary_classification", JStr "Creative")]]%string
  = Ok [(JStr "Creative", 2); (JStr "Builder", 1)]
  /\ sum_counts [(JStr "Creative", 2); (JStr "Builder", 1)] = 3.
Proof.
  split; [reflexivity|].
  exact (proj1 (proj1 (classification_breakdown_counts
                  [[("primary_classification", JStr "Builder")];
                   [("error", JStr "boom")];
                   [("primary_classification", JStr "Creative")];
                   [("primary_classification", JStr "Creative")]]%string)
                  [(JStr "Creative", 2); (JStr "Builder", 1)] eq_refl)).
Defined.

Lemma count_if_split {A} (p : A -> bool) (xs : list A) :
  count_if (fun x => negb (p x)) xs + count_if p xs = Z.of_nat (List.length xs).
Proof.
  induction xs as [|x xs IH]; [reflexivity|].
  rewrite !count_if_cons. simpl List.length. destruct (p x); simpl; lia.
Qed.

Lemma error_record_message (user : dict) (message analyzed_at : string)
      (extra : list entry) :
  existsb (entry_has "error") extra = false ->
  dict_lookup "error" (error_record user message analyzed_at extra)
  = Some (JStr message).
Proof.
  intros Hextra. unfold error_record.
  apply (dict_lookup_display_item "error" (JStr message) [_; _] (_ :: extra)).
  simpl. exact Hextra.
Qed.

(** X20.  What the last two numbers of a run mean for the records of
    the output file.  Every record is counted once, under Total
    classified or under Errors.  An error record is counted under
    Errors when the message of its exception is not empty, and under
    Total classified when it is empty; it never enters the breakdown.
    A success record is counted under Errors exactly when the decoded
    object has a truthy error field of its own. *)
Theorem summary_of_records (user creator : dict) (bio : json) (cast_texts : list json)
    (analyzed_at : string) :
  (forall classifications,
      total_classified classifications + total_errors classifications
      = Z.of_nat (List.length classifications))
  /\ (forall message,
        let record := error_record user message analyzed_at (financial_entries creator) in
        record_has "error" record = negb (String.eqb message EmptyString)
        /\ record_has "primary_classification" record = false)
  /\ (forall fields,
        distinct_keys fields ->
        record_has "error" (success_record user bio cast_texts fields analyzed_at
                                           (financial_entries creator))
        = truthy (get fields "error")).
Proof.
  split; [|split].
  - intros classifications. apply count_if_split.
  - intros message record. subst record. unfold record_has, get. split.
    + rewrite error_record_message by reflexivity. simpl.
      destruct message; reflexivity.
    + pose proof (error_record_shape user message analyzed_at
                    (financial_entries creator) eq_refl) as [_ Hnone].
      unfold has_key in Hnone.
      destruct (dict_lookup "primary_classification" _); [discriminate|reflexivity].
  - intros fields Hdistinct. unfold record_has, get.
    destruct (dict_lookup "error" fields) as [v|] eqn:Herror.
    + rewrite (success_record_field "error" v) by (reflexivity || assumption).
      reflexivity.
    + rewrite success_record_default by exact Herror.
      pose proof (success_record_shape user bio cast_texts [] analyzed_at
                    (financial_entries creator) eq_refl eq_refl) as (_ & _ & _ & Hnone).
      unfold has_key in Hnone. simpl in Hnone.
      destruct (dict_lookup "error" _); [discriminate|reflexivity].
Qed.

Lemma summary_of_records_witness :
  record_has "error"
    (success_record Scenario.alice_user NO_BIO Scenario.alice_texts
       [("primary_classification", JStr "Builder"); ("error", JStr "low confidence")]
       "2025-10-01T12:00:00" (financial_entries Scenario.alice_row))
  = true.
Proof.
  refine (eq_trans
            (proj2 (proj2 (summary_of_records Scenario.alice_user Scenario.alice_row
                             NO_BIO Scenario.alice_texts "2025-10-01T12:00:00"))
               [("primary_classification", JStr "Builder");
                ("error", JStr "low confidence")]%string _) eq_refl).
  unfold distinct_keys. apply (bool_decide_unpack _). vm_compute. exact I.
Defined.
